(** * splitpdf: size-bounded PDF splitting and the Ghostscript front end

    A shallow embedding of [split_pdf.py] and of the Ghostscript path of
    [compresspdf.py].  Python objects that are mutated in place
    ([PdfWriter]) live in a store and are handled through references;
    calls that touch the file system or start a process leave an event in
    a log; exceptions are the left summand of every result. *)

From Stdlib Require Import ZArith QArith List String Ascii Strings.Byte Lia DecimalString DecimalNat Sorted.
From stdpp Require Import base tactics option list strings.

Local Open Scope Z_scope.

(** ** Python values *)

Definition bytes := list Byte.byte.

(** [len(b)] for a [bytes] object. *)
Definition len (b : bytes) : Z := Z.of_nat (length b).

(** [int(x)] on a finite float: truncation toward zero.  A finite float is
    a dyadic rational, and multiplying it by 1024 is exact short of
    overflow, so [max_mb * 1024 * 1024] is the rational product. *)
Definition py_int (x : Q) : Z := Z.quot (Qnum x) (Zpos (Qden x)).

(** [str(n)] for a non-negative [int]. *)
Definition str_of_nat (n : nat) : string :=
  NilEmpty.string_of_uint (Nat.to_uint n).

(** [enumerate(l, start)]. *)
Fixpoint enumerate {A} (start : nat) (l : list A) : list (nat * A) :=
  match l with
  | [] => []
  | x :: l' => (start, x) :: enumerate (S start) l'
  end.

(** ** Exceptions, and the monad of stateful, fallible code *)

Inductive exn :=
  | IndexError
  | RuntimeError (msg : string)
  | CalledProcessError (returncode : Z)
  | OSError (msg : string)
  | PdfReadError (msg : string)
  | ValueError (msg : string)
  | AttributeError (msg : string)
  | DanglingRef.  (* not a Python exception: a reference that was never allocated *)

Definition M (S A : Type) : Type := S → (exn + A) * S.

#[export] Instance M_ret {S} : MRet (M S) := λ A (a : A) s, (inr a, s).

#[export] Instance M_bind {S} : MBind (M S) := λ A B (f : A → M S B) (m : M S A) s,
  match m s with
  | (inr a, s') => f a s'
  | (inl e, s') => (inl e, s')
  end.

Definition raise {S A} (e : exn) : M S A := λ s, (inl e, s).

(** An exception raised by a pure library call. *)
Definition lift {S A} (r : exn + A) : M S A := λ s, (r, s).

(** A [for] loop whose body updates the local variables [L]. *)
Fixpoint for_fold {S A L} (l : list A) (body : A → L → M S L) (acc : L) : M S L :=
  match l with
  | [] => mret acc
  | x :: l' => acc' ← body x acc; for_fold l' body acc'
  end.

(** A [for] loop with no local variables. *)
Fixpoint for_each {S A} (l : list A) (body : A → M S unit) : M S unit :=
  match l with
  | [] => mret tt
  | x :: l' => body x;; for_each l' body
  end.

(** ** split_pdf.py *)

Module SplitPdf.
Section split_pdf.

(** The opaque pages of PyPDF2 and [pathlib] paths. *)
Context {Page Path : Type}.

(** [writer.write(buffer)]: the bytes PyPDF2 produces for a page sequence. *)
Variable serialize : list Page → bytes.
(** [hasattr(writer, "remove_page")]: fixed by the installed library. *)
Variable has_remove_page : bool.
(** [PdfReader(str(input_path)).pages], or the exception of the load. *)
Variable PdfReader : Path → exn + list Page.
(** [pathlib]'s [dir / name]. *)
Variable path_div : Path → string → Path.

(** Calls on the file system, in the order they are made. *)
Inductive fs_event :=
  | Mkdir (dir : Path)
  | WriteBytes (file : Path) (data : bytes).

(** A writer is a reference into [heap]; its value there is [writer.pages]. *)
Record world := World { heap : list (list Page); fs_log : list fs_event }.

Definition ref := nat.

(** [PdfWriter()] *)
Definition PdfWriter : M world ref := λ w,
  (inr (length (heap w)), World (heap w ++ [[]]) (fs_log w)).

(** [writer.pages] *)
Definition pages (writer : ref) : M world (list Page) := λ w,
  match heap w !! writer with
  | Some ps => (inr ps, w)
  | None => (inl DanglingRef, w)
  end.

Definition set_pages (writer : ref) (ps : list Page) : M world unit := λ w,
  (inr tt, World (<[writer := ps]> (heap w)) (fs_log w)).

(** [writer.add_page(page)] *)
Definition add_page (writer : ref) (page : Page) : M world unit :=
  ps ← pages writer; set_pages writer (ps ++ [page]).

(** [writer.remove_page(index)], where the library has it: a method of the
    library, of which this program fixes nothing. *)
Variable remove_page : ref → Z → M world unit.

(** [output_dir.mkdir(parents=True, exist_ok=True)] *)
Definition mkdir (dir : Path) : M world unit := λ w,
  (inr tt, World (heap w) (fs_log w ++ [Mkdir dir])).

(** [output_path.write_bytes(data)] *)
Definition write_bytes (file : Path) (data : bytes) : M world unit := λ w,
  (inr tt, World (heap w) (fs_log w ++ [WriteBytes file data])).

Definition bytes_for_writer (writer : ref) : M world bytes :=
  ps ← pages writer; mret (serialize ps).

Definition remove_last_page (writer : ref) : M world ref :=
  if has_remove_page then
    remove_page writer (-1);;
    mret writer
  else
    ps ← pages writer;
    if bool_decide (length ps = 0%nat) then mret writer
    else
      new_writer ← PdfWriter;
      for_each (take (length ps - 1) ps) (λ page, add_page new_writer page);;
      mret new_writer.

(** [f"{base_name}_part{part_index}.pdf"] *)
Definition part_name (base_name : string) (part_index : nat) : string :=
  base_name +:+ "_part" +:+ str_of_nat part_index +:+ ".pdf".

(** The body of the loop over [enumerate(reader.pages, start=1)]; the
    local variables it updates are [part_index] and [writer]. *)
Definition split_step (output_dir : Path) (base_name : string) (max_bytes : Z)
    (it : nat * Page) (loc : nat * ref) : M world (nat * ref) :=
  let '(page_index, page) := it in
  let '(part_index, writer) := loc in
  add_page writer page;;
  current_bytes ← bytes_for_writer writer;
  overflow ← (if max_bytes <? len current_bytes
              then ps ← pages writer; mret (1 <? Z.of_nat (length ps))
              else mret false);
  if overflow : bool then
    writer ← remove_last_page writer;
    part_bytes ← bytes_for_writer writer;
    let output_path := path_div output_dir (part_name base_name part_index) in
    write_bytes output_path part_bytes;;
    let part_index := S part_index in
    writer ← PdfWriter;
    add_page writer page;;
    single_bytes ← bytes_for_writer writer;
    if max_bytes <? len single_bytes then
      let output_path := path_div output_dir (part_name base_name part_index) in
      write_bytes output_path single_bytes;;
      let part_index := S part_index in
      writer ← PdfWriter;
      mret (part_index, writer)
    else mret (part_index, writer)
  else mret (part_index, writer).

Definition split_pdf (input_path output_dir : Path) (base_name : string)
    (max_mb : Q) : M world unit :=
  let max_bytes := py_int (max_mb * 1024 * 1024)%Q in
  reader ← lift (PdfReader input_path);
  mkdir output_dir;;
  let part_index := 1%nat in
  writer ← PdfWriter;
  '(part_index, writer) ← for_fold (enumerate 1 reader)
      (split_step output_dir base_name max_bytes) (part_index, writer);
  ps ← pages writer;
  if 0 <? Z.of_nat (length ps) then
    let output_path := path_div output_dir (part_name base_name part_index) in
    data ← bytes_for_writer writer;
    write_bytes output_path data
  else mret tt.

(** *** The partition the loop computes, on page lists

    What one iteration does to the pages of the open writer: the parts it
    closes, and the pages the writer holds afterwards. *)

Definition overflows (max_bytes : Z) (ps : list Page) : bool :=
  max_bytes <? len (serialize ps).

Definition step_parts (max_bytes : Z) (page : Page) (cur : list Page)
    : list (list Page) * list Page :=
  if overflows max_bytes (cur ++ [page]) && (1 <? Z.of_nat (length (cur ++ [page])))
  then
    if overflows max_bytes [page] then ([cur; [page]], []) else ([cur], [page])
  else ([], cur ++ [page]).

(** The part written after the loop, if the open writer is not empty. *)
Definition flushed (cur : list Page) : list (list Page) :=
  if 0 <? Z.of_nat (length cur) then [cur] else [].

Fixpoint parts_from (max_bytes : Z) (doc cur : list Page) : list (list Page) :=
  match doc with
  | [] => flushed cur
  | page :: doc' =>
      let '(closed, cur') := step_parts max_bytes page cur in
      closed ++ parts_from max_bytes doc' cur'
  end.

(** The [write_bytes] calls that store [parts] under the indices
    [part_index], [part_index + 1], ... *)
Definition part_files (output_dir : Path) (base_name : string)
    (part_index : nat) (parts : list (list Page)) : list fs_event :=
  zip_with (λ N part, WriteBytes (path_div output_dir (part_name base_name N))
                                 (serialize part))
           (seq part_index (length parts)) parts.

(** A part is within the ceiling, or is a single page. *)
Definition fits (max_bytes : Z) (part : list Page) : Prop :=
  len (serialize part) ≤ max_bytes ∨ length part = 1%nat.

(** What the open writer satisfies between iterations. *)
Definition open_ok (max_bytes : Z) (cur : list Page) : Prop :=
  cur = [] ∨ fits max_bytes cur.

(** A run from [w] to [w'] made the output directory and then stored
    exactly [parts], in this order, as the files numbered from 1. *)
Definition stores (output_dir : Path) (base_name : string) (w w' : world)
    (parts : list (list Page)) : Prop :=
  fs_log w' = fs_log w ++ Mkdir output_dir :: part_files output_dir base_name 1 parts.

End split_pdf.
End SplitPdf.

(** ** compresspdf.py: the Ghostscript backend *)

Module CompressPdf.
Section compresspdf.

Context {Path : Type}.

(** [str(path)] *)
Variable str : Path → string.
(** [path.exists()] *)
Variable path_exists : Path → bool.
(** [shutil.which(name)] *)
Variable which : string → option string.
(** [Path(root).glob(pattern)] *)
Variable glob : string → string → list Path.
(** The order [sorted] compares paths with. *)
Variable path_le : Path → Path → bool.
(** The exit status of the process started for a command line. *)
Variable returncode : list string → Z.
(** The exception of [subprocess.run] when the program of a command line
    cannot be started ([FileNotFoundError], [PermissionError]), if any. *)
Variable spawn_error : list string → option exn.

(** Processes started, in order. *)
Inductive proc_event :=
  | Run (cmd : list string).

Definition log := list proc_event.

(** [bool(s)] for [s : str | None]. *)
Definition truthy (s : option string) : bool :=
  match s with
  | Some s => negb (String.eqb s "")
  | None => false
  end.

(** [a or b] on [str | None]; [b] is evaluated only when [a] is falsy. *)
Definition py_or (a : option string) (b : option string) : option string :=
  if truthy a then a else b.

Fixpoint insert_sorted (p : Path) (l : list Path) : list Path :=
  match l with
  | [] => [p]
  | q :: l' => if path_le p q then p :: l else q :: insert_sorted p l'
  end.

(** [sorted(l)] *)
Definition sorted (l : list Path) : list Path := foldr insert_sorted [] l.

Definition find_ghostscript (explicit_path : option Path) : option string :=
  match explicit_path with
  | Some p => if path_exists p then Some (str p) else None
  | None =>
      let gs := py_or (py_or (which "gs") (which "gswin64c")) (which "gswin32c") in
      if truthy gs then gs
      else
        let candidates :=
          [] ++ glob "C:/Program Files/gs" "**/bin/gswin64c.exe"
             ++ glob "C:/Program Files (x86)/gs" "**/bin/gswin32c.exe" in
        match last (sorted candidates) with
        | Some p => Some (str p)
        | None => None
        end
  end.

(** [subprocess.run(cmd, check=True)]: a program that cannot be started
    raises and no process runs; a process that ran raises
    [CalledProcessError] on an exit status other than zero. *)
Definition subprocess_run (cmd : list string) : M log unit := λ l,
  match spawn_error cmd with
  | Some e => (inl e, l)
  | None =>
      let l' := l ++ [Run cmd] in
      if returncode cmd =? 0 then (inr tt, l')
      else (inl (CalledProcessError (returncode cmd)), l')
  end.

Definition compress_with_ghostscript (input_path output_path : Path)
    (quality : string) (gs_path : option Path) : M log unit :=
  let gs := find_ghostscript gs_path in
  if negb (truthy gs) then
    raise (RuntimeError
      "Ghostscript not found. Install it or use --method pikepdf, or pass --gs-path.")
  else
    let gs := default "" gs in
    let pdf_setting :=
      if String.eqb quality "strong" then "/screen"
      else if String.eqb quality "light" then "/prepress"
      else "/ebook" in
    let cmd :=
      [ gs;
        "-sDEVICE=pdfwrite";
        "-dCompatibilityLevel=1.4";
        "-dPDFSETTINGS=" +:+ pdf_setting;
        "-dNOPAUSE";
        "-dBATCH";
        "-dQUIET";
        "-sOutputFile=" +:+ str output_path;
        str input_path ] in
    subprocess_run cmd.

End compresspdf.
End CompressPdf.

(** ** split_pdf.py: how full the stored parts are *)

Module SplitParts.
Section parts.

Context {Page : Type}.
Variable serialize : list Page → bytes.

(** Part [a] is followed by part [b]: [a] with the first page of [b] was
    measured above the ceiling, or [a] is a single page that is above the
    ceiling alone. *)
Definition full_before (max_bytes : Z) (a b : list Page) : Prop :=
  match b with
  | [] => False
  | q :: _ =>
      SplitPdf.overflows serialize max_bytes (a ++ [q]) = true
      ∨ (length a = 1%nat ∧ SplitPdf.overflows serialize max_bytes a = true)
  end.

Fixpoint greedy (max_bytes : Z) (parts : list (list Page)) : Prop :=
  match parts with
  | a :: rest =>
      match rest with
      | b :: _ => full_before max_bytes a b ∧ greedy max_bytes rest
      | [] => True
      end
  | [] => True
  end.

End parts.

(** The files a sequence of file system calls writes, in order. *)
Definition written_files {Path : Type} (log : list (@SplitPdf.fs_event Path))
    : list Path :=
  omap (λ ev, match ev with
              | SplitPdf.WriteBytes file _ => Some file
              | SplitPdf.Mkdir _ => None
              end) log.

End SplitParts.

(** ** split_pdf.py: the command line *)

Module SplitMain.
Section main.

Context {Page Path : Type}.
Variable serialize : list Page → bytes.
Variable has_remove_page : bool.
Variable PdfReader : Path → exn + list Page.
Variable path_div : Path → string → Path.
Variable remove_page : SplitPdf.ref → Z → M (@SplitPdf.world Page Path) unit.
(** [path.stem] *)
Variable stem : Path → string.

(** The namespace [parser.parse_args()] returns. *)
Record args := Args {
  input_pdf : Path;
  output_dir : Path;
  base_name : option string;
  max_mb : Q
}.

(** [a or b] for [a : str | None] and [b : str]. *)
Definition str_or (a : option string) (b : string) : string :=
  match a with
  | Some s => if String.eqb s "" then b else s
  | None => b
  end.

Definition main (a : args) : M (@SplitPdf.world Page Path) unit :=
  let base_name := str_or (base_name a) (stem (input_pdf a)) in
  SplitPdf.split_pdf serialize has_remove_page PdfReader path_div remove_page
    (input_pdf a) (output_dir a) base_name (max_mb a).

End main.
End SplitMain.

(** ** compresspdf.py: the pikepdf backend and the command line *)

Module CompressMain.
Section main.

Context {Path Pdf : Type}.
Variable str : Path → string.
Variable path_exists : Path → bool.
Variable which : string → option string.
Variable glob : string → string → list Path.
Variable path_le : Path → Path → bool.
Variable returncode : list string → Z.
Variable spawn_error : list string → option exn.
(** [path.stem] *)
Variable stem : Path → string.
(** [path.with_name(name)]: the sibling path, or the [ValueError] raised
    for a path with an empty name. *)
Variable with_name : Path → string → exn + Path.

(** [pikepdf.ObjectStreamMode] *)
Inductive ObjectStreamMode := disable | preserve | generate.

(** The keyword arguments of [pdf.save]. *)
Record save_options := SaveOptions {
  compress_streams : bool;
  object_stream_mode : ObjectStreamMode;
  linearize : bool
}.

(** [pikepdf.open(name)]: the document, or the exception of the load. *)
Variable pikepdf_open : string → exn + Pdf.
(** The exception [pdf.save(name, ...)] raises, if any. *)
Variable save_error : Pdf → string → save_options → option exn.

(** Calls on pikepdf, in the order they are made. *)
Inductive pike_event :=
  | Open (name : string)
  | Save (pdf : Pdf) (name : string) (options : save_options)
  | Close (pdf : Pdf).

(** Processes started and calls on pikepdf. *)
Record cworld := CWorld {
  procs : CompressPdf.log;
  pike : list pike_event
}.

(** [pdf.save(name, ...)] *)
Definition save (pdf : Pdf) (name : string) (options : save_options)
    : M (list pike_event) unit := λ l,
  let l' := l ++ [Save pdf name options] in
  match save_error pdf name options with
  | Some e => (inl e, l')
  | None => (inr tt, l')
  end.

(** [with pikepdf.open(name) as pdf: body]: the document is closed when the
    body returns and when it raises. *)
Definition with_open {A} (name : string) (body : Pdf → M (list pike_event) A)
    : M (list pike_event) A := λ l,
  let l' := l ++ [Open name] in
  match pikepdf_open name with
  | inl e => (inl e, l')
  | inr pdf => let '(r, l'') := body pdf l' in (r, l'' ++ [Close pdf])
  end.

Definition compress_with_pikepdf (input_path output_path : Path) (quality : string)
    : M (list pike_event) unit :=
  let '(compress_streams, object_streams, linearize) :=
    if String.eqb quality "strong" then (true, generate, false)
    else if String.eqb quality "light" then (true, disable, true)
    else (true, generate, true) in
  with_open (str input_path) (λ pdf,
    save pdf (str output_path)
      (SaveOptions compress_streams object_streams linearize)).

(** The namespace [parser.parse_args()] returns. *)
Record args := Args {
  input_pdf : Path;
  output : option Path;
  method : string;
  quality : string;
  gs_path : option Path
}.

Definition on_procs {A} (m : M CompressPdf.log A) : M cworld A := λ w,
  let '(r, l) := m (procs w) in (r, CWorld l (pike w)).

Definition on_pike {A} (m : M (list pike_event) A) : M cworld A := λ w,
  let '(r, l) := m (pike w) in (r, CWorld (procs w) l).

Definition main (a : args) : M cworld unit :=
  output_path ←
    match output a with
    | Some p => mret p
    | None =>
        lift (with_name (input_pdf a) (stem (input_pdf a) +:+ "_compressed.pdf"))
    end;
  if String.eqb (method a) "ghostscript" then
    on_procs (CompressPdf.compress_with_ghostscript str path_exists which glob
                path_le returncode spawn_error
                (input_pdf a) output_path (quality a) (gs_path a))
  else
    on_pike (compress_with_pikepdf (input_pdf a) output_path (quality a)).

End main.
End CompressMain.

(** ** Concrete documents and environments *)

Module Examples.

(** Pages are numbers and paths are strings.  A page sequence serializes
    to a one-byte header followed by as many zero bytes as its pages add up
    to. *)
Definition toy_serialize (ps : list nat) : bytes :=
  Byte.x25 :: concat (map (λ n, replicate n Byte.x00) ps).

(** Every page takes 3 MiB, whatever it is. *)
Definition mib3_serialize (ps : list nat) : bytes :=
  replicate (length ps * Z.to_nat 3145728) Byte.x00.

Definition join (dir name : string) : string := dir +:+ "/" +:+ name.

(** A file system that holds one document. *)
Definition one_file (name : string) (doc : list nat) (path : string)
    : exn + list nat :=
  if String.eqb path name then inr doc
  else inl (OSError "No such file or directory").

Definition empty_world : @SplitPdf.world nat string := SplitPdf.World [] [].

(** [max_mb] for a ceiling of five bytes. *)
Definition five_bytes : Q := 5 # 1048576.

(** A machine without Ghostscript. *)
Definition no_which (name : string) : option string := None.
Definition no_glob (root pattern : string) : list string := [].
Definition no_path (p : string) : bool := false.

(** A machine with [gs] on the search path. *)
Definition gs_on_path (name : string) : option string :=
  if String.eqb name "gs" then Some "/usr/bin/gs" else None.

(** Three 64-bit installs; paths are numbers, compared as numbers. *)
Definition installed (root pattern : string) : list nat :=
  if String.eqb root "C:/Program Files/gs" then [3; 1; 2]%nat else [].

(** A pikepdf that opens every file as document 7 and saves without error,
    and one that opens nothing. *)
Definition open_any (name : string) : exn + nat := inr 7%nat.
Definition open_none (name : string) : exn + nat :=
  inl (OSError "No such file or directory").
Definition save_fine (pdf : nat) (name : string)
    (options : CompressMain.save_options) : option exn := None.

(** Stems and sibling names of paths that are file names. *)
Definition stem (path : string) : string :=
  if String.eqb path "doc.pdf" then "doc" else path.
Definition with_name (path name : string) : exn + string :=
  if String.eqb path "" then inl (ValueError "'.' has an empty name")
  else inr name.

(** A writer of PyPDF2: it has no [remove_page]. *)
Definition no_remove_page (writer : nat) (index : Z)
    : M (@SplitPdf.world nat string) unit :=
  raise (AttributeError "'PdfWriter' object has no attribute 'remove_page'").


(** Every program can be started. *)
Definition starts (cmd : list string) : option exn := None.

End Examples.

(** * Running a sequence of calls *)

Lemma bind_run {S A B} (m : M S A) (f : A → M S B) s a s' :
  m s = (inr a, s') → (m ≫= f) s = f a s'.
Proof. intros E. unfold mbind, M_bind. by rewrite E. Qed.

Lemma bind_raise {S A B} (m : M S A) (f : A → M S B) s e s' :
  m s = (inl e, s') → (m ≫= f) s = (inl e, s').
Proof. intros E. unfold mbind, M_bind. by rewrite E. Qed.

(** Run the first call of a sequence, given the equation of what it
    returns. *)
Tactic Notation "run_with" uconstr(H) := rewrite (bind_run _ _ _ _ _ H).

(** Run the first call of a sequence when it computes. *)
Ltac run_prim := erewrite bind_run; [|reflexivity].

(** * Properties of split_pdf.py *)

Section split_pdf_theory.

Context {Page Path : Type}.
Variable serialize : list Page → bytes.
Variable has_remove_page : bool.
Variable PdfReader : Path → exn + list Page.
Variable path_div : Path → string → Path.

Local Abbreviation world := (@SplitPdf.world Page Path).
Local Abbreviation World := (@SplitPdf.World Page Path).
Local Abbreviation heap := (@SplitPdf.heap Page Path).
Local Abbreviation fs_log := (@SplitPdf.fs_log Page Path).
Local Abbreviation pages := (@SplitPdf.pages Page Path).
Local Abbreviation add_page := (@SplitPdf.add_page Page Path).
Local Abbreviation PdfWriter := (@SplitPdf.PdfWriter Page Path).
Local Abbreviation bytes_for_writer := (SplitPdf.bytes_for_writer (Path:=Path) serialize).
Variable remove_page : SplitPdf.ref → Z → M world unit.
Local Abbreviation remove_last_page := (SplitPdf.remove_last_page has_remove_page remove_page).
Local Abbreviation split_step := (SplitPdf.split_step serialize has_remove_page path_div remove_page).
Local Abbreviation split_pdf := (SplitPdf.split_pdf serialize has_remove_page PdfReader path_div remove_page).
Local Abbreviation part_files := (SplitPdf.part_files serialize path_div).
Local Abbreviation part_name := SplitPdf.part_name.
Local Abbreviation overflows := (SplitPdf.overflows serialize).
Local Abbreviation step_parts := (SplitPdf.step_parts serialize).
Local Abbreviation parts_from := (SplitPdf.parts_from serialize).
Local Abbreviation flushed := (@SplitPdf.flushed Page).
Local Abbreviation stores := (SplitPdf.stores serialize path_div).
Local Abbreviation fits := (SplitPdf.fits serialize).
Local Abbreviation open_ok := (SplitPdf.open_ok serialize).
Local Abbreviation Mkdir := (@SplitPdf.Mkdir Path).
Local Abbreviation WriteBytes := (@SplitPdf.WriteBytes Path).

(** ** Running the primitives *)

Lemma pages_run (w : world) writer ps :
  heap w !! writer = Some ps → pages writer w = (inr ps, w).
Proof. intros E. unfold SplitPdf.pages. by rewrite E. Qed.

Lemma add_page_run (w : world) writer ps page :
  heap w !! writer = Some ps →
  add_page writer page w
  = (inr tt, World (<[writer := ps ++ [page]]> (heap w)) (fs_log w)).
Proof.
  intros E. unfold SplitPdf.add_page.
  by run_with (pages_run _ _ _ E).
Qed.

Lemma bytes_for_writer_run (w : world) writer ps :
  heap w !! writer = Some ps →
  bytes_for_writer writer w = (inr (serialize ps), w).
Proof.
  intros E. unfold SplitPdf.bytes_for_writer.
  by run_with (pages_run _ _ _ E).
Qed.

Lemma lookup_fresh (h : list (list Page)) ps :
  (h ++ [ps]) !! length h = Some ps.
Proof. by rewrite list_lookup_middle. Qed.

Lemma lookup_updated (h : list (list Page)) writer ps ps' :
  h !! writer = Some ps → <[writer := ps']> h !! writer = Some ps'.
Proof. intros E. apply list_lookup_insert_eq. by eapply lookup_lt_Some. Qed.

(** The fallback loop of [remove_last_page] copies its pages in order. *)
Lemma copy_pages_run l : ∀ (w : world) writer acc,
  heap w !! writer = Some acc →
  for_each l (λ page, add_page writer page) w
  = (inr tt, World (<[writer := acc ++ l]> (heap w)) (fs_log w)).
Proof.
  induction l as [|page l IH]; intros w writer acc E; simpl.
  - rewrite app_nil_r, list_insert_id by done. by destruct w.
  - run_with (add_page_run _ _ _ _ E).
    rewrite (IH _ _ (acc ++ [page])); simpl.
    + by rewrite list_insert_insert_eq, <- app_assoc.
    + by eapply lookup_updated.
Qed.

Lemma take_pred_removelast (ps : list Page) :
  take (length ps - 1) ps = removelast ps.
Proof.
  induction ps as [|p ps IH] using rev_ind; [done|].
  rewrite removelast_last, length_app; simpl.
  replace (length ps + 1 - 1)%nat with (length ps) by lia.
  apply take_app_length.
Qed.

(** What the source takes for granted where the library has
    [remove_page]: [remove_page(-1)] on a writer that holds a page removes
    the last page, in place.  A library without [remove_page], as PyPDF2,
    satisfies this trivially; the fallback branch is then the one that
    runs. *)
Hypothesis remove_page_removes_last :
  has_remove_page = true →
  ∀ (w : world) writer ps,
    heap w !! writer = Some ps → ps ≠ [] →
    remove_page writer (-1) w
    = (inr tt, World (<[writer := removelast ps]> (heap w)) (fs_log w)).

(** The fallback branch, on a writer that holds a page. *)
Lemma remove_last_page_fallback (w : world) writer ps :
  has_remove_page = false →
  heap w !! writer = Some ps →
  ps ≠ [] →
  remove_last_page writer w
  = (inr (length (heap w)), World (heap w ++ [removelast ps]) (fs_log w)).
Proof.
  intros Hlib E Hne. unfold SplitPdf.remove_last_page. rewrite Hlib.
  run_with (pages_run _ _ _ E).
  rewrite bool_decide_false by (by destruct ps).
  run_prim. cbn [SplitPdf.heap SplitPdf.fs_log].
  rewrite take_pred_removelast.
  erewrite bind_run; [|apply (copy_pages_run _ _ _ []); apply lookup_fresh].
  cbn [SplitPdf.heap SplitPdf.fs_log app].
  replace (length (heap w)) with (length (heap w) + 0)%nat at 2 by lia.
  by rewrite insert_app_r.
Qed.

(** [remove_last_page] on a writer that holds at least one page: no
    exception, nothing written, and the writer returned holds the pages
    without the last one. *)
Lemma remove_last_page_run (w : world) writer ps :
  heap w !! writer = Some ps → ps ≠ [] →
  ∃ writer' w',
    remove_last_page writer w = (inr writer', w')
    ∧ heap w' !! writer' = Some (removelast ps)
    ∧ fs_log w' = fs_log w.
Proof.
  intros E Hne.
  assert (has_remove_page = true ∨ has_remove_page = false) as [Hlib | Hlib]
    by (destruct has_remove_page; auto).
  - exists writer. eexists. split; [|split].
    + unfold SplitPdf.remove_last_page. rewrite Hlib.
      by run_with (remove_page_removes_last Hlib _ _ _ E Hne).
    + simpl. by eapply lookup_updated.
    + done.
  - eexists _, _. split; [by apply remove_last_page_fallback|].
    split; [apply lookup_fresh | done].
Qed.

(** ** One iteration of the loop *)

Lemma overflow_test_run (w : world) writer max_bytes ps :
  heap w !! writer = Some ps →
  (if max_bytes <? len (serialize ps)
   then ps' ← pages writer; mret (1 <? Z.of_nat (length ps'))
   else mret false) w
  = (inr (overflows max_bytes ps && (1 <? Z.of_nat (length ps))), w).
Proof.
  intros E. unfold SplitPdf.overflows.
  destruct (max_bytes <? len (serialize ps)); [|done].
  by run_with (pages_run _ _ _ E).
Qed.

(** No overflow: the page stays in the open writer and nothing else changes. *)
Lemma split_step_accept (w : world) output_dir base_name max_bytes i page part_index writer cur :
  heap w !! writer = Some cur →
  overflows max_bytes (cur ++ [page]) && (1 <? Z.of_nat (length (cur ++ [page]))) = false →
  split_step output_dir base_name max_bytes (i, page) (part_index, writer) w
  = (inr (part_index, writer),
     World (<[writer := cur ++ [page]]> (heap w)) (fs_log w)).
Proof.
  intros E Hno. unfold SplitPdf.split_step.
  run_with (add_page_run _ _ _ _ E).
  assert (heap (World (<[writer := cur ++ [page]]> (heap w)) (fs_log w)) !! writer
          = Some (cur ++ [page])) as E' by (by eapply lookup_updated).
  run_with (bytes_for_writer_run _ _ _ E').
  run_with (overflow_test_run _ _ _ _ E').
  by rewrite Hno.
Qed.

(** Every iteration: the parts of [step_parts] are written under the next
    indices, and the open writer holds what [step_parts] leaves. *)
Lemma split_step_run (w : world) output_dir base_name max_bytes i page part_index writer cur :
  heap w !! writer = Some cur →
  ∃ writer' w',
    split_step output_dir base_name max_bytes (i, page) (part_index, writer) w
    = (inr ((part_index + length (step_parts max_bytes page cur).1)%nat, writer'), w')
    ∧ heap w' !! writer' = Some (step_parts max_bytes page cur).2
    ∧ fs_log w' = fs_log w
        ++ part_files output_dir base_name part_index (step_parts max_bytes page cur).1.
Proof.
  intros E. unfold SplitPdf.step_parts.
  destruct (overflows max_bytes (cur ++ [page]) && (1 <? Z.of_nat (length (cur ++ [page]))))
    eqn:Hover.
  2:{ exists writer. eexists. simpl. rewrite Nat.add_0_r, app_nil_r.
      split; [by apply (split_step_accept _ _ _ _ i)|]. simpl.
      split; [by eapply lookup_updated | done]. }
  apply andb_prop in Hover as [Hbig Hmany].
  unfold SplitPdf.split_step.
  run_with (add_page_run _ _ _ _ E).
  set (w0 := World (<[writer := cur ++ [page]]> (heap w)) (fs_log w)).
  assert (heap w0 !! writer = Some (cur ++ [page])) as E0 by (by eapply lookup_updated).
  run_with (bytes_for_writer_run _ _ _ E0).
  run_with (overflow_test_run _ _ _ _ E0).
  rewrite Hbig, Hmany; simpl.
  destruct (remove_last_page_run w0 writer (cur ++ [page]) E0) as (w1r & w1 & Hrm & E1 & Hlog1).
  { by destruct cur. }
  rewrite removelast_last in E1.
  run_with Hrm.
  run_with (bytes_for_writer_run _ _ _ E1).
  run_prim.
  run_prim.
  erewrite bind_run; [|apply (add_page_run _ _ []); apply lookup_fresh].
  erewrite bind_run; [|apply (bytes_for_writer_run _ _ [page]); simpl;
                       apply list_lookup_insert_eq; rewrite length_app; simpl; lia].
  simpl. fold (overflows max_bytes [page]).
  destruct (overflows max_bytes [page]); simpl.
  - run_prim.
    run_prim.
    replace (part_index + 2)%nat with (S (S part_index)) by lia.
    eexists _, _. split; [reflexivity|]. simpl.
    split.
    + apply lookup_fresh.
    + rewrite Hlog1. simpl. by rewrite <- app_assoc.
  - replace (part_index + 1)%nat with (S part_index) by lia.
    eexists _, _. split; [reflexivity|]. simpl.
    split.
    + apply list_lookup_insert_eq. rewrite length_app; simpl; lia.
    + by rewrite Hlog1.
Qed.

(** ** The loop and the whole run *)

Lemma part_files_app output_dir base_name part_index (a b : list (list Page)) :
  part_files output_dir base_name part_index (a ++ b)
  = part_files output_dir base_name part_index a
    ++ part_files output_dir base_name (part_index + length a) b.
Proof.
  unfold SplitPdf.part_files.
  rewrite length_app, seq_app, zip_with_app; [done|]. by rewrite length_seq.
Qed.

Lemma split_loop_run output_dir base_name max_bytes doc :
  ∀ start (w : world) part_index writer cur,
  heap w !! writer = Some cur →
  ∃ closed cur' writer' w',
    for_fold (enumerate start doc) (split_step output_dir base_name max_bytes)
             (part_index, writer) w
    = (inr ((part_index + length closed)%nat, writer'), w')
    ∧ heap w' !! writer' = Some cur'
    ∧ fs_log w' = fs_log w ++ part_files output_dir base_name part_index closed
    ∧ parts_from max_bytes doc cur = closed ++ flushed cur'.
Proof.
  induction doc as [|page doc IH]; intros start w part_index writer cur E; simpl.
  - exists [], cur, writer, w. rewrite Nat.add_0_r, app_nil_r. done.
  - destruct (split_step_run w output_dir base_name max_bytes start page part_index
                writer cur E) as (writer1 & w1 & Hstep & E1 & Hlog1).
    destruct (step_parts max_bytes page cur) as [closed1 cur1]; simpl in *.
    destruct (IH (S start) w1 (part_index + length closed1)%nat writer1 cur1 E1)
      as (closed2 & cur2 & writer2 & w2 & Hloop & E2 & Hlog2 & Hparts).
    exists (closed1 ++ closed2), cur2, writer2, w2.
    run_with Hstep. rewrite Hloop.
    rewrite length_app, Nat.add_assoc. split; [done|]. split; [done|].
    rewrite Hlog2, Hlog1, part_files_app, Hparts. by rewrite !app_assoc.
Qed.

(** A run on a readable document never raises, and its file system calls
    are the [mkdir] followed by the parts of [parts_from], numbered from 1. *)
Lemma split_pdf_run (w : world) input_path output_dir base_name max_mb doc :
  PdfReader input_path = inr doc →
  ∃ w',
    split_pdf input_path output_dir base_name max_mb w = (inr tt, w')
    ∧ fs_log w' = fs_log w ++ Mkdir output_dir
        :: part_files output_dir base_name 1
             (parts_from (py_int (max_mb * 1024 * 1024)%Q) doc []).
Proof.
  intros Hdoc. unfold SplitPdf.split_pdf.
  set (max_bytes := py_int _).
  erewrite bind_run; [|unfold lift; by rewrite Hdoc].
  run_prim.
  run_prim.
  cbn [SplitPdf.heap SplitPdf.fs_log].
  destruct (split_loop_run output_dir base_name max_bytes doc 1%nat
              (World (heap w ++ [[]]) (fs_log w ++ [Mkdir output_dir]))
              1%nat (length (heap w)) [] (lookup_fresh _ _)) as
    (closed & cur & writer & w' & Hloop & E & Hlog & Hparts).
  run_with Hloop.
  run_with (pages_run _ _ _ E).
  rewrite Hparts, part_files_app. unfold SplitPdf.flushed.
  destruct (0 <? Z.of_nat (length cur)).
  - run_with (bytes_for_writer_run _ _ _ E).
    eexists. split; [reflexivity|]. simpl. rewrite Hlog. simpl.
    by rewrite <- !app_assoc.
  - eexists. split; [reflexivity|]. rewrite Hlog. simpl.
    by rewrite app_nil_r, <- !app_assoc.
Qed.


(** ** The partition, on page lists *)

Lemma step_parts_concat max_bytes page cur :
  concat (step_parts max_bytes page cur).1 ++ (step_parts max_bytes page cur).2
  = cur ++ [page].
Proof.
  unfold SplitPdf.step_parts.
  destruct (_ && _); [destruct (overflows max_bytes [page])|]; simpl;
    by rewrite ?app_nil_r.
Qed.

Lemma flushed_concat (cur : list Page) : concat (flushed cur) = cur.
Proof.
  unfold SplitPdf.flushed. destruct cur; simpl; [done|].
  by rewrite app_nil_r.
Qed.

Lemma parts_from_concat max_bytes doc :
  ∀ cur, concat (parts_from max_bytes doc cur) = cur ++ doc.
Proof.
  induction doc as [|page doc IH]; intros cur; simpl.
  - by rewrite flushed_concat, app_nil_r.
  - pose proof (step_parts_concat max_bytes page cur) as Hstep.
    destruct (step_parts max_bytes page cur) as [closed cur']; simpl in *.
    rewrite concat_app, IH, app_assoc, Hstep. by rewrite <- app_assoc.
Qed.

Lemma step_parts_nonempty max_bytes page cur :
  Forall (λ part, part ≠ []) (step_parts max_bytes page cur).1.
Proof.
  unfold SplitPdf.step_parts.
  destruct (_ && _) eqn:Hover; [|by constructor].
  apply andb_prop in Hover as [_ Hmany].
  assert (cur ≠ []) by (intros ->; cbv in Hmany; done).
  destruct (overflows max_bytes [page]); simpl; repeat constructor; done.
Qed.

Lemma flushed_nonempty (cur : list Page) : Forall (λ part, part ≠ []) (flushed cur).
Proof. unfold SplitPdf.flushed. destruct cur; simpl; repeat constructor; done. Qed.

Lemma parts_from_nonempty max_bytes doc :
  ∀ cur, Forall (λ part, part ≠ []) (parts_from max_bytes doc cur).
Proof.
  induction doc as [|page doc IH]; intros cur; simpl.
  - apply flushed_nonempty.
  - pose proof (step_parts_nonempty max_bytes page cur) as Hstep.
    destruct (step_parts max_bytes page cur) as [closed cur']; simpl in *.
    apply Forall_app; split; [done | apply IH].
Qed.

Lemma overflows_false max_bytes ps :
  overflows max_bytes ps = false ↔ len (serialize ps) ≤ max_bytes.
Proof. unfold SplitPdf.overflows. lia. Qed.

Lemma step_parts_fits max_bytes page cur :
  open_ok max_bytes cur →
  Forall (fits max_bytes) (step_parts max_bytes page cur).1
  ∧ open_ok max_bytes (step_parts max_bytes page cur).2.
Proof.
  intros Hcur. unfold SplitPdf.step_parts.
  destruct (_ && _) eqn:Hover.
  - apply andb_prop in Hover as [_ Hmany].
    destruct Hcur as [-> | Hcur]; [cbv in Hmany; done|].
    destruct (overflows max_bytes [page]) eqn:Hsingle; simpl.
    + split; [|by left]. repeat apply Forall_cons_2; [done | by right | constructor].
    + split; [by repeat apply Forall_cons_2; [|constructor]|]. right. by right.
  - simpl. split; [constructor|]. right.
    apply andb_false_iff in Hover as [Hsmall | Hone].
    + left. by apply overflows_false.
    + right. apply Z.ltb_ge in Hone. rewrite length_app in *. cbn [length] in *. lia.
Qed.

Lemma flushed_fits max_bytes cur :
  open_ok max_bytes cur → Forall (fits max_bytes) (flushed cur).
Proof.
  intros [-> | Hcur]; [constructor|].
  unfold SplitPdf.flushed. destruct (0 <? _); [|constructor].
  by apply Forall_cons_2; [|constructor].
Qed.

Lemma parts_from_fits max_bytes doc :
  ∀ cur, open_ok max_bytes cur → Forall (fits max_bytes) (parts_from max_bytes doc cur).
Proof.
  induction doc as [|page doc IH]; intros cur Hcur; simpl.
  - by apply flushed_fits.
  - destruct (step_parts_fits max_bytes page cur Hcur) as [Hclosed Hopen].
    destruct (step_parts max_bytes page cur) as [closed cur']; simpl in *.
    apply Forall_app; split; [done | by apply IH].
Qed.

Lemma parts_from_nil_iff max_bytes doc cur :
  parts_from max_bytes doc cur = [] ↔ cur ++ doc = [].
Proof.
  split.
  - intros Hnil. by rewrite <- (parts_from_concat max_bytes), Hnil.
  - intros [-> ->]%app_eq_nil. done.
Qed.

(** ** The invariants of a run *)

(** C1 (size bound): for a ceiling above zero, every Part a run stores
    serializes to at most [max_bytes] bytes, or holds exactly one page. *)
Theorem split_pdf_size_bound (w : world) input_path output_dir base_name max_mb doc :
  PdfReader input_path = inr doc →
  0 < py_int (max_mb * 1024 * 1024)%Q →
  ∃ parts w',
    split_pdf input_path output_dir base_name max_mb w = (inr tt, w')
    ∧ stores output_dir base_name w w' parts
    ∧ Forall (λ part, len (serialize part) ≤ py_int (max_mb * 1024 * 1024)%Q
                      ∨ length part = 1%nat) parts.
Proof.
  intros Hdoc _.
  destruct (split_pdf_run w input_path output_dir base_name max_mb doc Hdoc)
    as (w' & Hrun & Hlog).
  eexists _, w'. split; [exact Hrun|]. split; [exact Hlog|].
  apply parts_from_fits. by left.
Qed.

(** C2 (completeness): the Parts a run stores, concatenated in the order
    they are stored, are the pages of the document. *)
Theorem split_pdf_complete (w : world) input_path output_dir base_name max_mb doc :
  PdfReader input_path = inr doc →
  ∃ parts w',
    split_pdf input_path output_dir base_name max_mb w = (inr tt, w')
    ∧ stores output_dir base_name w w' parts
    ∧ concat parts = doc.
Proof.
  intros Hdoc.
  destruct (split_pdf_run w input_path output_dir base_name max_mb doc Hdoc)
    as (w' & Hrun & Hlog).
  eexists _, w'. split; [exact Hrun|]. split; [exact Hlog|].
  apply parts_from_concat.
Qed.

(** C4 (non-emptiness): for a ceiling above zero, every Part stored holds
    at least one page, and no Part is stored exactly when the document has
    no page; the run returns normally then as well. *)
Theorem split_pdf_parts_nonempty (w : world) input_path output_dir base_name max_mb doc :
  PdfReader input_path = inr doc →
  0 < py_int (max_mb * 1024 * 1024)%Q →
  ∃ parts w',
    split_pdf input_path output_dir base_name max_mb w = (inr tt, w')
    ∧ stores output_dir base_name w w' parts
    ∧ Forall (λ part, (1 ≤ length part)%nat) parts
    ∧ (parts = [] ↔ doc = []).
Proof.
  intros Hdoc _.
  destruct (split_pdf_run w input_path output_dir base_name max_mb doc Hdoc)
    as (w' & Hrun & Hlog).
  eexists _, w'. split; [exact Hrun|]. split; [exact Hlog|]. split.
  - eapply Forall_impl; [apply parts_from_nonempty|].
    intros [|p part] Hne; [done | simpl; lia].
  - apply parts_from_nil_iff.
Qed.

(** C5 (determinism): two runs on the same document with the same ceiling,
    started in any two states of the store and of the log, store the same
    Parts: the same page groups, hence the same page counts. *)
Theorem split_pdf_deterministic (w1 w2 : world) input_path output_dir base_name max_mb doc :
  PdfReader input_path = inr doc →
  ∃ parts w1' w2',
    split_pdf input_path output_dir base_name max_mb w1 = (inr tt, w1')
    ∧ split_pdf input_path output_dir base_name max_mb w2 = (inr tt, w2')
    ∧ stores output_dir base_name w1 w1' parts
    ∧ stores output_dir base_name w2 w2' parts.
Proof.
  intros Hdoc.
  destruct (split_pdf_run w1 input_path output_dir base_name max_mb doc Hdoc)
    as (w1' & Hrun1 & Hlog1).
  destruct (split_pdf_run w2 input_path output_dir base_name max_mb doc Hdoc)
    as (w2' & Hrun2 & Hlog2).
  by eexists _, w1', w2'.
Qed.

(** C8 (numbering): a run that stores K Parts writes K files, in the order
    the Parts are closed, named [{base_name}_part{N}.pdf] for N = 1, ..., K. *)
Theorem split_pdf_numbering (w : world) input_path output_dir base_name max_mb doc :
  PdfReader input_path = inr doc →
  ∃ parts w',
    split_pdf input_path output_dir base_name max_mb w = (inr tt, w')
    ∧ fs_log w' = fs_log w ++ Mkdir output_dir ::
        zip_with (λ N part,
                    WriteBytes
                      (path_div output_dir (base_name +:+ "_part" +:+ str_of_nat N +:+ ".pdf"))
                      (serialize part))
                 (seq 1 (length parts)) parts.
Proof.
  intros Hdoc.
  destruct (split_pdf_run w input_path output_dir base_name max_mb doc Hdoc)
    as (w' & Hrun & Hlog).
  by eexists _, w'.
Qed.

(** C6 (tie-break): an iteration whose trial serialization is at most
    [max_bytes] bytes, so also one that is exactly [max_bytes] bytes, keeps
    the page in the open writer, writes nothing and leaves [part_index]
    alone; an iteration writes a file only when the trial serialization is
    strictly above [max_bytes]. *)
Theorem split_step_tie_break (w : world) output_dir base_name max_bytes i page
    part_index writer cur :
  heap w !! writer = Some cur →
  (len (serialize (cur ++ [page])) ≤ max_bytes →
     split_step output_dir base_name max_bytes (i, page) (part_index, writer) w
     = (inr (part_index, writer),
        World (<[writer := cur ++ [page]]> (heap w)) (fs_log w)))
  ∧ (fs_log (split_step output_dir base_name max_bytes (i, page) (part_index, writer) w).2
       ≠ fs_log w →
     max_bytes < len (serialize (cur ++ [page]))).
Proof.
  intros E.
  assert (len (serialize (cur ++ [page])) ≤ max_bytes →
          split_step output_dir base_name max_bytes (i, page) (part_index, writer) w
          = (inr (part_index, writer),
             World (<[writer := cur ++ [page]]> (heap w)) (fs_log w))) as Hkeep.
  { intros Hle. apply split_step_accept with (cur := cur); [done|].
    apply andb_false_iff. left. by apply overflows_false. }
  split; [exact Hkeep|].
  intros Hwritten.
  destruct (Z_lt_le_dec max_bytes (len (serialize (cur ++ [page])))) as [Hlt | Hle];
    [done|].
  rewrite (Hkeep Hle) in Hwritten. done.
Qed.

(** With every trial serialization above the ceiling, each page is closed
    as a Part of its own. *)
Lemma parts_from_singles max_bytes :
  (∀ ps, overflows max_bytes ps = true) →
  ∀ doc cur, (length cur ≤ 1)%nat →
  parts_from max_bytes doc cur = map (λ page, [page]) (cur ++ doc).
Proof.
  intros Hover. induction doc as [|page doc IH]; intros cur Hcur.
  - destruct cur as [|q [|? ?]]; [done | done | simpl in Hcur; lia].
  - simpl. unfold SplitPdf.step_parts. rewrite !Hover.
    destruct cur as [|q [|? ?]]; [| | simpl in Hcur; lia].
    + simpl. rewrite (IH [page]); [done | simpl; lia].
    + simpl. rewrite (IH []); [done | simpl; lia].
Qed.

(** C3, as the code has it: a ceiling of zero bytes or less is not
    rejected.  Every serialization being at least one byte long, the run
    returns normally and stores each page of the document as a Part of
    its own. *)
Theorem split_pdf_ceiling_not_checked (w : world) input_path output_dir base_name
    max_mb doc :
  PdfReader input_path = inr doc →
  py_int (max_mb * 1024 * 1024)%Q ≤ 0 →
  (∀ ps, 0 < len (serialize ps)) →
  ∃ w',
    split_pdf input_path output_dir base_name max_mb w = (inr tt, w')
    ∧ stores output_dir base_name w w' (map (λ page, [page]) doc).
Proof.
  intros Hdoc Hceil Hser.
  destruct (split_pdf_run w input_path output_dir base_name max_mb doc Hdoc)
    as (w' & Hrun & Hlog).
  exists w'. split; [exact Hrun|].
  unfold SplitPdf.stores. rewrite Hlog, parts_from_singles; [done | | simpl; lia].
  intros ps. unfold SplitPdf.overflows. specialize (Hser ps). lia.
Qed.

Lemma parts_from_cons max_bytes page doc cur :
  parts_from max_bytes (page :: doc) cur
  = (step_parts max_bytes page cur).1
    ++ parts_from max_bytes doc (step_parts max_bytes page cur).2.
Proof. simpl. by destruct (step_parts max_bytes page cur). Qed.

Lemma step_parts_first max_bytes page : step_parts max_bytes page [] = ([], [page]).
Proof. unfold SplitPdf.step_parts. simpl. by rewrite andb_false_r. Qed.

Lemma step_parts_keep max_bytes page cur :
  overflows max_bytes (cur ++ [page]) = false →
  step_parts max_bytes page cur = ([], cur ++ [page]).
Proof. intros Hno. unfold SplitPdf.step_parts. by rewrite Hno. Qed.

Lemma step_parts_close max_bytes page cur :
  cur ≠ [] →
  overflows max_bytes (cur ++ [page]) = true →
  overflows max_bytes [page] = false →
  step_parts max_bytes page cur = ([cur], [page]).
Proof.
  intros Hne Hover Hsingle. unfold SplitPdf.step_parts. rewrite Hover, Hsingle.
  replace (1 <? Z.of_nat (length (cur ++ [page]))) with true; [done|].
  symmetry. apply Z.ltb_lt. destruct cur; [done|]. rewrite length_app. simpl. lia.
Qed.

(** C7 (scenario B): five pages and the default ceiling of 10 MB.  Pages of
    about 3 MB: two and three pages together stay within the ceiling, the
    first four do not, page 4 alone and pages 4 and 5 together do.  The
    run stores two Parts, pages 1 to 3 and pages 4 and 5; the only
    rollback is at page 4. *)
Theorem split_pdf_scenario_B (w : world) input_path output_dir base_name p1 p2 p3 p4 p5 :
  PdfReader input_path = inr [p1; p2; p3; p4; p5] →
  len (serialize [p1; p2]) ≤ 10 * 1024 * 1024 →
  len (serialize [p1; p2; p3]) ≤ 10 * 1024 * 1024 →
  10 * 1024 * 1024 < len (serialize [p1; p2; p3; p4]) →
  len (serialize [p4]) ≤ 10 * 1024 * 1024 →
  len (serialize [p4; p5]) ≤ 10 * 1024 * 1024 →
  ∃ w',
    split_pdf input_path output_dir base_name 10%Q w = (inr tt, w')
    ∧ stores output_dir base_name w w' [[p1; p2; p3]; [p4; p5]].
Proof.
  intros Hdoc H12 H123 H1234 H4 H45.
  destruct (split_pdf_run w input_path output_dir base_name 10%Q _ Hdoc)
    as (w' & Hrun & Hlog).
  exists w'. split; [exact Hrun|].
  unfold SplitPdf.stores. rewrite Hlog. do 2 f_equal.
  change (py_int (10 * 1024 * 1024)%Q) with (10 * 1024 * 1024).
  generalize dependent (10 * 1024 * 1024). intros M H12 H123 H1234 H4 H45.
  apply overflows_false in H12, H123, H4, H45.
  assert (overflows M [p1; p2; p3; p4] = true) as Hover
    by (unfold SplitPdf.overflows; lia).
  rewrite parts_from_cons, step_parts_first; cbn [fst snd app].
  rewrite parts_from_cons, step_parts_keep by done; cbn [fst snd app].
  rewrite parts_from_cons, step_parts_keep by done; cbn [fst snd app].
  rewrite parts_from_cons, step_parts_close by done; cbn [fst snd app].
  rewrite parts_from_cons, step_parts_keep by done; cbn [fst snd app].
  reflexivity.
Qed.

(** ** More on the stored parts *)

Local Abbreviation greedy := (SplitParts.greedy serialize).
Local Abbreviation full_before := (SplitParts.full_before serialize).

Lemma parts_from_all_fit max_bytes doc :
  ∀ cur,
  (∀ k, (1 ≤ k ≤ length doc)%nat → (2 ≤ length cur + k)%nat →
        len (serialize (cur ++ take k doc)) ≤ max_bytes) →
  parts_from max_bytes doc cur = flushed (cur ++ doc).
Proof.
  induction doc as [|page doc IH]; intros cur Hfit.
  - by rewrite app_nil_r.
  - rewrite parts_from_cons.
    assert (step_parts max_bytes page cur = ([], cur ++ [page])) as ->.
    { unfold SplitPdf.step_parts.
      destruct (decide (2 ≤ length cur + 1)%nat) as [Hmany | Hone].
      - rewrite (proj2 (overflows_false max_bytes (cur ++ [page]))); [done|].
        apply (Hfit 1%nat); [simpl; lia | done].
      - replace (1 <? Z.of_nat (length (cur ++ [page]))) with false;
          [by rewrite andb_false_r|].
        symmetry. apply Z.ltb_ge. rewrite length_app. simpl. lia. }
    cbn [fst snd app]. rewrite IH; [by rewrite <- app_assoc|].
    intros k Hk Hlen. rewrite <- app_assoc. apply (Hfit (S k)).
    + simpl. lia.
    + rewrite length_app in Hlen. simpl in Hlen. lia.
Qed.

(** X1: a document with a page, all of whose prefixes of two pages or more
    serialize within the ceiling, is stored whole as the single file
    [{base_name}_part1.pdf]; its first page alone is never measured. *)
Theorem split_pdf_one_part (w : world) input_path output_dir base_name max_mb doc :
  PdfReader input_path = inr doc →
  doc ≠ [] →
  (∀ k, (2 ≤ k ≤ length doc)%nat →
        len (serialize (take k doc)) ≤ py_int (max_mb * 1024 * 1024)%Q) →
  ∃ w',
    split_pdf input_path output_dir base_name max_mb w = (inr tt, w')
    ∧ fs_log w' = fs_log w ++
        [Mkdir output_dir;
         WriteBytes (path_div output_dir (base_name +:+ "_part1.pdf")) (serialize doc)].
Proof.
  intros Hdoc Hne Hfit.
  destruct (split_pdf_run w input_path output_dir base_name max_mb doc Hdoc)
    as (w' & Hrun & Hlog).
  exists w'. split; [exact Hrun|].
  rewrite Hlog, parts_from_all_fit.
  - unfold SplitPdf.flushed. destruct doc; [done|]. reflexivity.
  - intros k Hk Hlen. apply Hfit. simpl in Hlen. lia.
Qed.

(** X2: when a group of pages never serializes to fewer bytes than one of
    its pages alone, every page of the document that is above the ceiling
    alone is stored as a Part of its own: that Part is among the Parts
    stored, and no other Part holds the page. *)
Theorem split_pdf_oversized_page_alone (w : world) input_path output_dir base_name
    max_mb doc :
  PdfReader input_path = inr doc →
  (∀ part page, page ∈ part → len (serialize [page]) ≤ len (serialize part)) →
  ∃ parts w',
    split_pdf input_path output_dir base_name max_mb w = (inr tt, w')
    ∧ stores output_dir base_name w w' parts
    ∧ ∀ page, page ∈ doc →
        py_int (max_mb * 1024 * 1024)%Q < len (serialize [page]) →
        [page] ∈ parts
        ∧ ∀ part, part ∈ parts → page ∈ part → part = [page].
Proof.
  intros Hdoc Hmono.
  destruct (split_pdf_run w input_path output_dir base_name max_mb doc Hdoc)
    as (w' & Hrun & Hlog).
  eexists _, w'. split; [exact Hrun|]. split; [exact Hlog|].
  set (parts := parts_from _ doc []).
  assert (∀ part page, part ∈ parts → page ∈ part →
            py_int (max_mb * 1024 * 1024)%Q < len (serialize [page]) →
            part = [page]) as Halone.
  { intros part page Hpart Hpage Hbig.
    pose proof (parts_from_fits (py_int (max_mb * 1024 * 1024)%Q) doc []
                  (or_introl eq_refl)) as Hfits.
    rewrite Forall_forall in Hfits. destruct (Hfits part Hpart) as [Hsmall | Hone].
    - specialize (Hmono part page Hpage). lia.
    - destruct part as [|p [|? ?]]; [done | | done].
      by apply list_elem_of_singleton in Hpage as ->. }
  intros page Hpage Hbig.
  split; [|intros part Hp Hi; exact (Halone part page Hp Hi Hbig)].
  pose proof (parts_from_concat (py_int (max_mb * 1024 * 1024)%Q) doc []) as Hcat.
  simpl in Hcat. rewrite <- Hcat in Hpage.
  apply list_elem_of_In, in_concat in Hpage as (part & Hpart & Hin).
  apply list_elem_of_In in Hpart, Hin.
  by rewrite <- (Halone part page Hpart Hin Hbig).
Qed.

Lemma parts_from_head max_bytes doc :
  ∀ cur, cur ≠ [] →
  ∃ rest tail, parts_from max_bytes doc cur = (cur ++ rest) :: tail.
Proof.
  induction doc as [|page doc IH]; intros cur Hne.
  - exists [], []. simpl. unfold SplitPdf.flushed. rewrite app_nil_r.
    by destruct cur.
  - rewrite parts_from_cons. unfold SplitPdf.step_parts.
    destruct (_ && _).
    + exists []. rewrite app_nil_r.
      destruct (overflows max_bytes [page]); simpl; eauto.
    + cbn [fst snd app].
      destruct (IH (cur ++ [page])) as (rest & tail & ->); [by destruct cur|].
      exists (page :: rest), tail. by rewrite <- app_assoc.
Qed.

Lemma parts_from_greedy max_bytes doc :
  ∀ cur, greedy max_bytes (parts_from max_bytes doc cur).
Proof.
  induction doc as [|page doc IH]; intros cur.
  - simpl. unfold SplitPdf.flushed. by destruct (0 <? _).
  - rewrite parts_from_cons. unfold SplitPdf.step_parts.
    destruct (_ && _) eqn:Hover; [|apply IH].
    apply andb_prop in Hover as [Hbig Hmany].
    destruct (overflows max_bytes [page]) eqn:Hsingle; cbn [fst snd app].
    + split; [by left|].
      destruct doc as [|q doc]; [done|].
      specialize (IH []). rewrite parts_from_cons, step_parts_first in *.
      cbn [fst snd app] in *.
      destruct (parts_from_head max_bytes doc [q]) as (rest & tail & Heq); [done|].
      rewrite Heq in *. split; [|exact IH]. simpl. by right.
    + specialize (IH [page]).
      destruct (parts_from_head max_bytes doc [page]) as (rest & tail & Heq); [done|].
      rewrite Heq in *. split; [|exact IH]. simpl. by left.
Qed.

(** X3: the parts are filled greedily.  For every two parts stored one
    after the other, the first one together with the first page of the
    second was measured above the ceiling, or the first one is a single
    page that is above the ceiling alone. *)
Theorem split_pdf_parts_greedy (w : world) input_path output_dir base_name max_mb doc :
  PdfReader input_path = inr doc →
  ∃ parts w',
    split_pdf input_path output_dir base_name max_mb w = (inr tt, w')
    ∧ stores output_dir base_name w w' parts
    ∧ ∀ i a b, parts !! i = Some a → parts !! S i = Some b →
        ∃ q b', b = q :: b'
          ∧ (py_int (max_mb * 1024 * 1024)%Q < len (serialize (a ++ [q]))
             ∨ (length a = 1%nat
                ∧ py_int (max_mb * 1024 * 1024)%Q < len (serialize a))).
Proof.
  intros Hdoc.
  destruct (split_pdf_run w input_path output_dir base_name max_mb doc Hdoc)
    as (w' & Hrun & Hlog).
  eexists _, w'. split; [exact Hrun|]. split; [exact Hlog|].
  pose proof (parts_from_greedy (py_int (max_mb * 1024 * 1024)%Q) doc []) as Hgreedy.
  revert Hgreedy. generalize (parts_from (py_int (max_mb * 1024 * 1024)%Q) doc []).
  intros parts. induction parts as [|a0 parts IH]; intros Hgreedy i a b Ha Hb; [done|].
  destruct parts as [|b0 parts]; [by destruct i|].
  destruct Hgreedy as [Hfull Hrest].
  destruct i as [|i].
  - simpl in Ha, Hb. simplify_eq.
    destruct b as [|q b']; [done|]. exists q, b'. split; [done|].
    unfold SplitParts.full_before, SplitPdf.overflows in Hfull.
    destruct Hfull as [Hfull | [Hone Hfull]]; [left | right; split; [done|]]; lia.
  - by apply (IH Hrest i).
Qed.

Lemma length_concat_nonempty (parts : list (list Page)) :
  Forall (λ part, part ≠ []) parts → (length parts ≤ length (concat parts))%nat.
Proof.
  induction 1 as [|part parts Hne _ IH]; simpl; [done|].
  rewrite length_app. destruct part; [done|]. simpl. lia.
Qed.

(** X4: a run never stores more Parts than the document has pages. *)
Theorem split_pdf_parts_le_pages (w : world) input_path output_dir base_name max_mb doc :
  PdfReader input_path = inr doc →
  ∃ parts w',
    split_pdf input_path output_dir base_name max_mb w = (inr tt, w')
    ∧ stores output_dir base_name w w' parts
    ∧ (length parts ≤ length doc)%nat.
Proof.
  intros Hdoc.
  destruct (split_pdf_run w input_path output_dir base_name max_mb doc Hdoc)
    as (w' & Hrun & Hlog).
  eexists _, w'. split; [exact Hrun|]. split; [exact Hlog|].
  rewrite <- (parts_from_concat (py_int (max_mb * 1024 * 1024)%Q) doc []) at 2.
  apply length_concat_nonempty, parts_from_nonempty.
Qed.

(** ** File names *)

Lemma string_length_app (s t : string) :
  String.length (s +:+ t) = (String.length s + String.length t)%nat.
Proof. induction s; simpl; by f_equal. Qed.

Lemma string_app_inj_r (t s1 s2 : string) : s1 +:+ t = s2 +:+ t → s1 = s2.
Proof.
  revert s2. induction s1 as [|a s1 IH]; intros [|b s2] Heq; simpl in *.
  - done.
  - apply (f_equal String.length) in Heq.
    rewrite !string_length_app in Heq. simpl in Heq. lia.
  - apply (f_equal String.length) in Heq.
    rewrite !string_length_app in Heq. simpl in Heq. lia.
  - injection Heq as -> Heq. f_equal. by apply IH.
Qed.

Lemma str_of_nat_inj (i j : nat) : str_of_nat i = str_of_nat j → i = j.
Proof.
  unfold str_of_nat. intros Heq.
  apply (f_equal NilEmpty.uint_of_string) in Heq.
  rewrite !NilEmpty.usu in Heq. injection Heq as Heq.
  apply (f_equal Nat.of_uint) in Heq. by rewrite !DecimalNat.Unsigned.of_to in Heq.
Qed.

Lemma part_name_inj base_name (i j : nat) :
  part_name base_name i = part_name base_name j → i = j.
Proof.
  unfold SplitPdf.part_name. intros Heq.
  apply (inj (String.app _)), (inj (String.app _)) in Heq.
  by apply string_app_inj_r, str_of_nat_inj in Heq.
Qed.

Lemma written_files_part_files output_dir base_name part_index parts :
  SplitParts.written_files (part_files output_dir base_name part_index parts)
  = map (λ N, path_div output_dir (part_name base_name N))
        (seq part_index (length parts)).
Proof.
  unfold SplitPdf.part_files, SplitParts.written_files.
  revert part_index. induction parts as [|part parts IH]; intros part_index; simpl;
    [done|]. by rewrite IH.
Qed.

(** X6: the names [{base_name}_part{N}.pdf] differ for different [N];
    where [output_dir / name] keeps these names apart, the Parts of a run
    are written to files that differ from one another: no Part overwrites
    another. *)
Theorem split_pdf_files_distinct (w : world) input_path output_dir base_name max_mb doc :
  PdfReader input_path = inr doc →
  (∀ i j, path_div output_dir (part_name base_name i)
          = path_div output_dir (part_name base_name j) →
          part_name base_name i = part_name base_name j) →
  ∃ calls w',
    split_pdf input_path output_dir base_name max_mb w = (inr tt, w')
    ∧ fs_log w' = fs_log w ++ calls
    ∧ NoDup (SplitParts.written_files calls).
Proof.
  intros Hdoc Hdiv.
  destruct (split_pdf_run w input_path output_dir base_name max_mb doc Hdoc)
    as (w' & Hrun & Hlog).
  eexists _, w'. split; [exact Hrun|]. split; [exact Hlog|].
  change (NoDup (SplitParts.written_files (part_files output_dir base_name 1
            (parts_from (py_int (max_mb * 1024 * 1024)%Q) doc [])))).
  rewrite written_files_part_files.
  apply NoDup_fmap_2; [|apply NoDup_seq].
  intros i j Heq. by apply Hdiv, part_name_inj in Heq.
Qed.

(** ** The writer that [remove_last_page] returns *)

(** X7: without [remove_page] in the library, [remove_last_page] on a
    writer that holds a page leaves that writer and every other writer as
    they were, and returns a new writer that holds the pages without the
    last one. *)
Theorem remove_last_page_fallback_fresh (w : world) writer ps :
  has_remove_page = false →
  heap w !! writer = Some ps →
  ps ≠ [] →
  remove_last_page writer w
  = (inr (length (heap w)), World (heap w ++ [removelast ps]) (fs_log w)).
Proof.
  intros Hlib E Hne. unfold SplitPdf.remove_last_page. rewrite Hlib.
  run_with (pages_run _ _ _ E).
  rewrite bool_decide_false by (by destruct ps).
  run_prim. cbn [SplitPdf.heap SplitPdf.fs_log].
  rewrite take_pred_removelast.
  erewrite bind_run; [|apply (copy_pages_run _ _ _ []); apply lookup_fresh].
  cbn [SplitPdf.heap SplitPdf.fs_log app].
  replace (length (heap w)) with (length (heap w) + 0)%nat at 2 by lia.
  by rewrite insert_app_r.
Qed.

(** X8: rollback without [remove_page] in the library.  Adding a page to
    a writer and then calling [remove_last_page] returns a new writer that
    holds the pages held before; the writer passed in keeps the page
    added, and nothing is written. *)
Theorem add_page_remove_last_page (w : world) writer ps page :
  has_remove_page = false →
  heap w !! writer = Some ps →
  (add_page writer page ≫= λ _, remove_last_page writer) w
  = (inr (length (heap w)),
     World (<[writer := ps ++ [page]]> (heap w) ++ [ps]) (fs_log w)).
Proof.
  intros Hlib E. run_with (add_page_run _ _ _ page E).
  rewrite (remove_last_page_fallback _ writer (ps ++ [page]) Hlib).
  - cbn [SplitPdf.heap SplitPdf.fs_log]. by rewrite length_insert, removelast_last.
  - by eapply lookup_updated.
  - by destruct ps.
Qed.

End split_pdf_theory.

(** A library without [remove_page] asks nothing of [remove_page]. *)
Lemma fallback_only {P : Prop} : false = true → P.
Proof. discriminate. Qed.


(** ** The invariants on a five-page document with a ceiling of five bytes *)

Lemma split_pdf_size_bound_witness :
  ∃ parts w',
    SplitPdf.split_pdf Examples.toy_serialize false
      (Examples.one_file "doc.pdf" [2; 2; 2; 9; 1]%nat) Examples.join Examples.no_remove_page
      "doc.pdf" "out" "doc" Examples.five_bytes Examples.empty_world = (inr tt, w')
    ∧ SplitPdf.stores Examples.toy_serialize Examples.join "out" "doc"
        Examples.empty_world w' parts
    ∧ Forall (λ part, len (Examples.toy_serialize part) ≤ 5 ∨ length part = 1%nat) parts.
Proof.
  apply (split_pdf_size_bound Examples.toy_serialize false
           (Examples.one_file "doc.pdf" [2; 2; 2; 9; 1]%nat) Examples.join Examples.no_remove_page fallback_only
           Examples.empty_world "doc.pdf" "out" "doc" Examples.five_bytes
           [2; 2; 2; 9; 1]%nat).
  - reflexivity.
  - reflexivity.
Defined.

Lemma split_pdf_complete_witness :
  ∃ parts w',
    SplitPdf.split_pdf Examples.toy_serialize false
      (Examples.one_file "doc.pdf" [2; 2; 2; 9; 1]%nat) Examples.join Examples.no_remove_page
      "doc.pdf" "out" "doc" Examples.five_bytes Examples.empty_world = (inr tt, w')
    ∧ SplitPdf.stores Examples.toy_serialize Examples.join "out" "doc"
        Examples.empty_world w' parts
    ∧ concat parts = [2; 2; 2; 9; 1]%nat.
Proof.
  apply (split_pdf_complete Examples.toy_serialize false
           (Examples.one_file "doc.pdf" [2; 2; 2; 9; 1]%nat) Examples.join Examples.no_remove_page fallback_only
           Examples.empty_world "doc.pdf" "out" "doc" Examples.five_bytes).
  reflexivity.
Defined.

Lemma split_pdf_parts_nonempty_witness :
  ∃ parts w',
    SplitPdf.split_pdf Examples.toy_serialize false
      (Examples.one_file "doc.pdf" [2; 2; 2; 9; 1]%nat) Examples.join Examples.no_remove_page
      "doc.pdf" "out" "doc" Examples.five_bytes Examples.empty_world = (inr tt, w')
    ∧ SplitPdf.stores Examples.toy_serialize Examples.join "out" "doc"
        Examples.empty_world w' parts
    ∧ Forall (λ part, (1 ≤ length part)%nat) parts
    ∧ (parts = [] ↔ [2; 2; 2; 9; 1]%nat = []).
Proof.
  apply (split_pdf_parts_nonempty Examples.toy_serialize false
           (Examples.one_file "doc.pdf" [2; 2; 2; 9; 1]%nat) Examples.join Examples.no_remove_page fallback_only
           Examples.empty_world "doc.pdf" "out" "doc" Examples.five_bytes).
  - reflexivity.
  - reflexivity.
Defined.

Lemma split_pdf_deterministic_witness :
  ∃ parts w1' w2',
    SplitPdf.split_pdf Examples.toy_serialize false
      (Examples.one_file "doc.pdf" [2; 2; 2; 9; 1]%nat) Examples.join Examples.no_remove_page
      "doc.pdf" "out" "doc" Examples.five_bytes Examples.empty_world = (inr tt, w1')
    ∧ SplitPdf.split_pdf Examples.toy_serialize false
        (Examples.one_file "doc.pdf" [2; 2; 2; 9; 1]%nat) Examples.join Examples.no_remove_page
        "doc.pdf" "out" "doc" Examples.five_bytes
        (SplitPdf.World [[7; 7]%nat] [SplitPdf.Mkdir "tmp"]) = (inr tt, w2')
    ∧ SplitPdf.stores Examples.toy_serialize Examples.join "out" "doc"
        Examples.empty_world w1' parts
    ∧ SplitPdf.stores Examples.toy_serialize Examples.join "out" "doc"
        (SplitPdf.World [[7; 7]%nat] [SplitPdf.Mkdir "tmp"]) w2' parts.
Proof.
  apply (split_pdf_deterministic Examples.toy_serialize false
           (Examples.one_file "doc.pdf" [2; 2; 2; 9; 1]%nat) Examples.join Examples.no_remove_page fallback_only
           Examples.empty_world (SplitPdf.World [[7; 7]%nat] [SplitPdf.Mkdir "tmp"])
           "doc.pdf" "out" "doc" Examples.five_bytes [2; 2; 2; 9; 1]%nat).
  reflexivity.
Defined.

Lemma split_pdf_numbering_witness :
  ∃ parts w',
    SplitPdf.split_pdf Examples.toy_serialize false
      (Examples.one_file "doc.pdf" [2; 2; 2; 9; 1]%nat) Examples.join Examples.no_remove_page
      "doc.pdf" "out" "doc" Examples.five_bytes Examples.empty_world = (inr tt, w')
    ∧ SplitPdf.fs_log w' = [] ++ SplitPdf.Mkdir "out" ::
        zip_with (λ N part,
                    SplitPdf.WriteBytes
                      (Examples.join "out" ("doc" +:+ "_part" +:+ str_of_nat N +:+ ".pdf"))
                      (Examples.toy_serialize part))
                 (seq 1 (length parts)) parts.
Proof.
  apply (split_pdf_numbering Examples.toy_serialize false
           (Examples.one_file "doc.pdf" [2; 2; 2; 9; 1]%nat) Examples.join Examples.no_remove_page fallback_only
           Examples.empty_world "doc.pdf" "out" "doc" Examples.five_bytes
           [2; 2; 2; 9; 1]%nat).
  reflexivity.
Defined.

(** The names a run produces, spelled out. *)
Example split_pdf_numbering_names :
  map (λ ev, match ev with
             | SplitPdf.Mkdir dir => dir
             | SplitPdf.WriteBytes file _ => file
             end)
      (SplitPdf.fs_log
         (SplitPdf.split_pdf Examples.toy_serialize false
            (Examples.one_file "doc.pdf" [2; 2; 2; 9; 1]%nat) Examples.join Examples.no_remove_page
            "doc.pdf" "out" "doc" Examples.five_bytes Examples.empty_world).2)
  = ["out"; "out/doc_part1.pdf"; "out/doc_part2.pdf"; "out/doc_part3.pdf";
     "out/doc_part4.pdf"].
Proof. reflexivity. Qed.

(** A trial serialization of exactly five bytes under a ceiling of five
    bytes: the page is kept. *)
Lemma split_step_tie_break_witness :
  len (Examples.toy_serialize ([2] ++ [2])%nat) = 5
  ∧ SplitPdf.split_step Examples.toy_serialize false Examples.join
      Examples.no_remove_page "out" "doc" 5
      (2, 2)%nat (1%nat, 0%nat) (SplitPdf.World [[2%nat]] [])
    = (inr (1%nat, 0%nat), SplitPdf.World [[2; 2]%nat] []).
Proof.
  split; [reflexivity|].
  apply (split_step_tie_break Examples.toy_serialize false Examples.join
           Examples.no_remove_page
           (SplitPdf.World [[2%nat]] []) "out" "doc" 5 2%nat 2%nat 1%nat 0%nat [2%nat]).
  - reflexivity.
  - vm_compute. discriminate.
Defined.

(** C3 fails on the code: with [max_mb = 0] the ceiling is zero bytes, and
    the run returns normally and writes a file. *)
Lemma split_pdf_zero_ceiling_accepted :
  py_int (0 * 1024 * 1024)%Q ≤ 0
  ∧ SplitPdf.split_pdf Examples.toy_serialize false
      (Examples.one_file "one.pdf" [3%nat]) Examples.join Examples.no_remove_page
      "one.pdf" "out" "one" 0%Q Examples.empty_world
    = (inr tt,
       SplitPdf.World [[3%nat]]
         [SplitPdf.Mkdir "out";
          SplitPdf.WriteBytes "out/one_part1.pdf"
            [Byte.x25; Byte.x00; Byte.x00; Byte.x00]]).
Proof. split; [vm_compute; discriminate | reflexivity]. Qed.

Lemma toy_serialize_nonempty ps : 0 < len (Examples.toy_serialize ps).
Proof. unfold len, Examples.toy_serialize. simpl length. lia. Qed.

Lemma split_pdf_ceiling_not_checked_witness :
  ∃ w',
    SplitPdf.split_pdf Examples.toy_serialize false
      (Examples.one_file "doc.pdf" [2; 2; 2; 9; 1]%nat) Examples.join Examples.no_remove_page
      "doc.pdf" "out" "doc" (-1)%Q Examples.empty_world = (inr tt, w')
    ∧ SplitPdf.stores Examples.toy_serialize Examples.join "out" "doc"
        Examples.empty_world w' [[2]; [2]; [2]; [9]; [1]]%nat.
Proof.
  apply (split_pdf_ceiling_not_checked Examples.toy_serialize false
           (Examples.one_file "doc.pdf" [2; 2; 2; 9; 1]%nat) Examples.join Examples.no_remove_page fallback_only
           Examples.empty_world "doc.pdf" "out" "doc" (-1)%Q [2; 2; 2; 9; 1]%nat).
  - reflexivity.
  - vm_compute. discriminate.
  - exact toy_serialize_nonempty.
Defined.

Lemma len_mib3_serialize ps :
  len (Examples.mib3_serialize ps) = 3145728 * Z.of_nat (length ps).
Proof. unfold len, Examples.mib3_serialize. rewrite length_replicate. lia. Qed.

(** Scenario B with five pages of 3 MiB. *)
Lemma split_pdf_scenario_B_witness :
  ∃ w',
    SplitPdf.split_pdf Examples.mib3_serialize false
      (Examples.one_file "doc.pdf" [1; 2; 3; 4; 5]%nat) Examples.join Examples.no_remove_page
      "doc.pdf" "out" "doc" 10%Q Examples.empty_world = (inr tt, w')
    ∧ SplitPdf.stores Examples.mib3_serialize Examples.join "out" "doc"
        Examples.empty_world w' [[1; 2; 3]; [4; 5]]%nat.
Proof.
  apply (split_pdf_scenario_B Examples.mib3_serialize false
           (Examples.one_file "doc.pdf" [1; 2; 3; 4; 5]%nat) Examples.join Examples.no_remove_page fallback_only
           Examples.empty_world "doc.pdf" "out" "doc" 1 2 3 4 5)%nat.
  - reflexivity.
  - rewrite len_mib3_serialize. cbn [length]. lia.
  - rewrite len_mib3_serialize. cbn [length]. lia.
  - rewrite len_mib3_serialize. cbn [length]. lia.
  - rewrite len_mib3_serialize. cbn [length]. lia.
  - rewrite len_mib3_serialize. cbn [length]. lia.
Defined.

(** * Properties of compresspdf.py *)

Section compresspdf_theory.

Context {Path : Type}.
Variable str : Path → string.
Variable path_exists : Path → bool.
Variable which : string → option string.
Variable glob : string → string → list Path.
Variable path_le : Path → Path → bool.
Variable returncode : list string → Z.
Variable spawn_error : list string → option exn.

Local Abbreviation find_ghostscript :=
  (CompressPdf.find_ghostscript str path_exists which glob path_le).
Local Abbreviation compress_with_ghostscript :=
  (CompressPdf.compress_with_ghostscript str path_exists which glob path_le
     returncode spawn_error).

(** Discovery finds nothing: no executable on the search path and none at
    the Windows install locations. *)
Lemma find_ghostscript_none (gs_path : option Path) :
  which "gs" = None → which "gswin64c" = None → which "gswin32c" = None →
  glob "C:/Program Files/gs" "**/bin/gswin64c.exe" = [] →
  glob "C:/Program Files (x86)/gs" "**/bin/gswin32c.exe" = [] →
  (∀ p, gs_path = Some p → path_exists p = false) →
  find_ghostscript gs_path = None.
Proof.
  intros Hgs H64 H32 Hg64 Hg32 Hexplicit. unfold CompressPdf.find_ghostscript.
  destruct gs_path as [p|].
  - by rewrite (Hexplicit p eq_refl).
  - by rewrite Hgs, H64, H32, Hg64, Hg32.
Qed.

(** C9: Ghostscript is found neither on the search path nor at the install
    locations, and no explicit path that exists is given.  The call raises
    the "Ghostscript not found" error and starts no process, so nothing
    creates the output file. *)
Theorem ghostscript_unavailable (l : CompressPdf.log) (input_path output_path : Path)
    (quality : string) (gs_path : option Path) :
  which "gs" = None → which "gswin64c" = None → which "gswin32c" = None →
  glob "C:/Program Files/gs" "**/bin/gswin64c.exe" = [] →
  glob "C:/Program Files (x86)/gs" "**/bin/gswin32c.exe" = [] →
  (∀ p, gs_path = Some p → path_exists p = false) →
  compress_with_ghostscript input_path output_path quality gs_path l
  = (inl (RuntimeError
            "Ghostscript not found. Install it or use --method pikepdf, or pass --gs-path."),
     l).
Proof.
  intros Hgs H64 H32 Hg64 Hg32 Hexplicit. unfold CompressPdf.compress_with_ghostscript.
  by rewrite find_ghostscript_none.
Qed.

(** ** More on the search for Ghostscript *)

Local Abbreviation sorted := (CompressPdf.sorted path_le).
Local Abbreviation insert_sorted := (CompressPdf.insert_sorted path_le).
Local Abbreviation truthy := CompressPdf.truthy.

(** X9: an explicit path that does not exist is not replaced by a search:
    the call raises the "Ghostscript not found" error and starts no
    process, whatever is on the search path or installed. *)
Theorem ghostscript_bad_explicit_path (l : CompressPdf.log)
    (input_path output_path : Path) (quality : string) (p : Path) :
  path_exists p = false →
  compress_with_ghostscript input_path output_path quality (Some p) l
  = (inl (RuntimeError
            "Ghostscript not found. Install it or use --method pikepdf, or pass --gs-path."),
     l).
Proof.
  intros Hmissing.
  unfold CompressPdf.compress_with_ghostscript, CompressPdf.find_ghostscript.
  by rewrite Hmissing.
Qed.

Lemma insert_sorted_elem (p q : Path) l : q ∈ insert_sorted p l ↔ q = p ∨ q ∈ l.
Proof.
  induction l as [|x l IH]; simpl.
  - rewrite list_elem_of_singleton, elem_of_nil. tauto.
  - destruct (path_le p x); [apply elem_of_cons|].
    rewrite !elem_of_cons, IH. tauto.
Qed.

Lemma sorted_elem (q : Path) l : q ∈ sorted l ↔ q ∈ l.
Proof.
  induction l as [|x l IH]; [done|].
  unfold CompressPdf.sorted in *. simpl.
  rewrite insert_sorted_elem, elem_of_cons, IH. tauto.
Qed.

Lemma sorted_nil_iff l : sorted l = [] ↔ l = [].
Proof.
  split; [|by intros ->].
  destruct l as [|x l]; [done|]. intros Hnil.
  assert (x ∈ sorted (x :: l)) as Hx by (apply sorted_elem; left).
  rewrite Hnil in Hx. by apply elem_of_nil in Hx.
Qed.

Lemma truthy_py_or a b :
  truthy (CompressPdf.py_or a b) = truthy a || truthy b.
Proof. unfold CompressPdf.py_or. by destruct (truthy a) eqn:Ha. Qed.

(** X10: with no explicit path, [find_ghostscript] finds nothing exactly
    when [which] has no non-empty answer for [gs], [gswin64c] and
    [gswin32c] and both install locations hold no executable. *)
Theorem find_ghostscript_none_iff :
  find_ghostscript None = None
  ↔ truthy (which "gs") = false
    ∧ truthy (which "gswin64c") = false
    ∧ truthy (which "gswin32c") = false
    ∧ glob "C:/Program Files/gs" "**/bin/gswin64c.exe" = []
    ∧ glob "C:/Program Files (x86)/gs" "**/bin/gswin32c.exe" = [].
Proof.
  unfold CompressPdf.find_ghostscript.
  set (gs := CompressPdf.py_or _ _).
  assert (truthy gs = truthy (which "gs") || truthy (which "gswin64c")
                      || truthy (which "gswin32c")) as Hgs
    by (unfold gs; by rewrite !truthy_py_or).
  destruct (truthy gs) eqn:Hfound.
  - split.
    + intros Hnone. by rewrite Hnone in Hfound.
    + intros (Ha & Hb & Hc & _). by rewrite Ha, Hb, Hc in Hgs.
  - symmetry in Hgs. apply orb_false_elim in Hgs as [[Ha Hb]%orb_false_elim Hc].
    simpl. destruct (last _) as [p|] eqn:Hlast.
    + split; [done|]. intros (_ & _ & _ & Hg64 & Hg32).
      by rewrite Hg64, Hg32 in Hlast.
    + apply last_None, sorted_nil_iff, app_eq_nil in Hlast as [-> ->]. done.
Qed.

Section order.

Hypothesis path_le_total : ∀ p q, path_le p q = true ∨ path_le q p = true.
Hypothesis path_le_trans : ∀ p q r,
  path_le p q = true → path_le q r = true → path_le p r = true.

Lemma insert_sorted_ascending (p : Path) l :
  StronglySorted (λ a b, path_le a b = true) l →
  StronglySorted (λ a b, path_le a b = true) (insert_sorted p l).
Proof.
  induction 1 as [|x l Hsorted IH Hx]; simpl.
  - repeat constructor.
  - destruct (path_le p x) eqn:Hpx.
    + constructor; [by constructor|].
      constructor; [done|]. eapply Forall_impl; [exact Hx|].
      intros y Hxy. by eapply path_le_trans.
    + constructor; [done|]. apply Forall_forall. intros y Hy.
      apply insert_sorted_elem in Hy as [-> | Hy].
      * destruct (path_le_total p x) as [Hle | Hle]; [congruence | done].
      * rewrite Forall_forall in Hx. by apply Hx.
Qed.

Lemma sorted_ascending l : StronglySorted (λ a b, path_le a b = true) (sorted l).
Proof.
  induction l as [|x l IH]; [constructor|].
  by apply insert_sorted_ascending.
Qed.

Lemma ascending_last l (m : Path) :
  StronglySorted (λ a b, path_le a b = true) l →
  last l = Some m → ∀ q, q ∈ l → path_le q m = true.
Proof.
  induction 1 as [|x l Hsorted IH Hx]; intros Hlast q Hq; [done|].
  destruct l as [|y l].
  - simpl in Hlast. apply list_elem_of_singleton in Hq. simplify_eq.
    by destruct (path_le_total m m).
  - change (last (y :: l) = Some m) in Hlast.
    apply elem_of_cons in Hq as [-> | Hq]; [|by apply IH].
    rewrite Forall_forall in Hx. apply Hx.
    apply last_Some_elem_of in Hlast. done.
Qed.

(** X11: when nothing is on the search path and an install location holds
    an executable, [find_ghostscript] returns one of the executables found
    there, and no other comes after it in the order of [sorted]. *)
Theorem find_ghostscript_latest :
  truthy (which "gs") = false →
  truthy (which "gswin64c") = false →
  truthy (which "gswin32c") = false →
  glob "C:/Program Files/gs" "**/bin/gswin64c.exe"
    ++ glob "C:/Program Files (x86)/gs" "**/bin/gswin32c.exe" ≠ [] →
  ∃ p,
    find_ghostscript None = Some (str p)
    ∧ p ∈ glob "C:/Program Files/gs" "**/bin/gswin64c.exe"
          ++ glob "C:/Program Files (x86)/gs" "**/bin/gswin32c.exe"
    ∧ ∀ q, q ∈ glob "C:/Program Files/gs" "**/bin/gswin64c.exe"
               ++ glob "C:/Program Files (x86)/gs" "**/bin/gswin32c.exe" →
           path_le q p = true.
Proof.
  intros Hgs H64 H32 Hfound.
  unfold CompressPdf.find_ghostscript.
  rewrite !truthy_py_or, Hgs, H64, H32. simpl.
  set (candidates := _ ++ _) in *.
  destruct (last (sorted candidates)) as [p|] eqn:Hlast.
  - exists p. split; [done|]. split.
    + apply sorted_elem. by apply last_Some_elem_of.
    + intros q Hq. eapply ascending_last; [apply sorted_ascending | done |].
      by apply sorted_elem.
  - apply last_None in Hlast. apply (proj1 (sorted_nil_iff _)) in Hlast.
    exfalso. exact (Hfound Hlast).
Qed.

End order.

(** ** Running Ghostscript *)

(** X12: when Ghostscript is found, [subprocess.run] is given one command
    line, with the executable found as the program, the output path in
    [-sOutputFile=] and the input path as the last argument.  If the
    program cannot be started, the exception of [subprocess.run] is the
    result and no process has run; otherwise exactly one process runs, and
    the call raises [CalledProcessError] exactly when its exit status is
    not zero. *)
Theorem ghostscript_runs_once (l : CompressPdf.log) (input_path output_path : Path)
    (quality : string) (gs_path : option Path) (gs : string) :
  find_ghostscript gs_path = Some gs →
  gs ≠ "" →
  ∃ cmd,
    compress_with_ghostscript input_path output_path quality gs_path l
    = match spawn_error cmd with
      | Some e => (inl e, l)
      | None =>
          (if returncode cmd =? 0 then inr tt
           else inl (CalledProcessError (returncode cmd)),
           l ++ [CompressPdf.Run cmd])
      end
    ∧ head cmd = Some gs
    ∧ ("-sOutputFile=" +:+ str output_path) ∈ cmd
    ∧ last cmd = Some (str input_path).
Proof.
  intros Hfound Hne. unfold CompressPdf.compress_with_ghostscript.
  rewrite Hfound. simpl.
  rewrite (proj2 (String.eqb_neq gs "") Hne).
  simpl.
  match goal with
  | |- context [CompressPdf.subprocess_run _ _ ?cmd] => exists cmd
  end.
  split; [|split; [|split]].
  - unfold CompressPdf.subprocess_run.
    destruct (spawn_error _); [done|]. by destruct (_ =? 0).
  - done.
  - do 7 apply list_elem_of_further. apply list_elem_of_here.
  - done.
Qed.

(** X13: a quality other than "strong" and "light" is the "medium"
    quality for Ghostscript. *)
Theorem ghostscript_other_quality_is_medium (l : CompressPdf.log)
    (input_path output_path : Path) (quality : string) (gs_path : option Path) :
  quality ≠ "strong" → quality ≠ "light" →
  compress_with_ghostscript input_path output_path quality gs_path l
  = compress_with_ghostscript input_path output_path "medium" gs_path l.
Proof.
  intros Hstrong%String.eqb_neq Hlight%String.eqb_neq.
  unfold CompressPdf.compress_with_ghostscript. by rewrite Hstrong, Hlight.
Qed.

End compresspdf_theory.

Lemma ghostscript_unavailable_witness :
  CompressPdf.compress_with_ghostscript id Examples.no_path Examples.no_which
    Examples.no_glob String.leb (λ _, 0) Examples.starts "in.pdf" "out.pdf" "medium"
    (Some "C:/gs/bin/gswin64c.exe") []
  = (inl (RuntimeError
            "Ghostscript not found. Install it or use --method pikepdf, or pass --gs-path."),
     []).
Proof.
  apply (ghostscript_unavailable id Examples.no_path Examples.no_which
           Examples.no_glob String.leb (λ _, 0) Examples.starts [] "in.pdf" "out.pdf" "medium"
           (Some "C:/gs/bin/gswin64c.exe")); reflexivity.
Defined.

(** * Properties of the pikepdf backend and of the command lines *)

Section compress_main_theory.

Context {Path Pdf : Type}.
Variable str : Path → string.
Variable path_exists : Path → bool.
Variable which : string → option string.
Variable glob : string → string → list Path.
Variable path_le : Path → Path → bool.
Variable returncode : list string → Z.
Variable spawn_error : list string → option exn.
Variable stem : Path → string.
Variable with_name : Path → string → exn + Path.
Variable pikepdf_open : string → exn + Pdf.
Variable save_error :
  Pdf → string → CompressMain.save_options → option exn.

Local Abbreviation compress_with_pikepdf :=
  (CompressMain.compress_with_pikepdf str pikepdf_open save_error).
Local Abbreviation main :=
  (CompressMain.main str path_exists which glob path_le returncode spawn_error
     stem with_name pikepdf_open save_error).
Local Abbreviation find_ghostscript :=
  (CompressPdf.find_ghostscript str path_exists which glob path_le).

(** X14: a quality other than "strong" and "light" is the "medium"
    quality for pikepdf. *)
Theorem pikepdf_other_quality_is_medium (l : list CompressMain.pike_event)
    (input_path output_path : Path) (quality : string) :
  quality ≠ "strong" → quality ≠ "light" →
  compress_with_pikepdf input_path output_path quality l
  = compress_with_pikepdf input_path output_path "medium" l.
Proof.
  intros Hstrong%String.eqb_neq Hlight%String.eqb_neq.
  unfold CompressMain.compress_with_pikepdf. by rewrite Hstrong, Hlight.
Qed.

(** X15: when the input cannot be opened, the exception of [pikepdf.open]
    is the result and [save] is never called. *)
Theorem pikepdf_unreadable (l : list CompressMain.pike_event)
    (input_path output_path : Path) (quality : string) (e : exn) :
  pikepdf_open (str input_path) = inl e →
  compress_with_pikepdf input_path output_path quality l
  = (inl e, l ++ [CompressMain.Open (str input_path)]).
Proof.
  intros Hopen. unfold CompressMain.compress_with_pikepdf.
  destruct (if String.eqb quality "strong" then _ else _) as [[cs os] lin].
  unfold CompressMain.with_open. by rewrite Hopen.
Qed.

(** X16: when the input opens, it is saved once, to the output path and
    with stream compression on, and then closed, whether [save] raises or
    not; the exception of [save], if any, is the result. *)
Theorem pikepdf_saves_and_closes (l : list CompressMain.pike_event)
    (input_path output_path : Path) (quality : string) (pdf : Pdf) :
  pikepdf_open (str input_path) = inr pdf →
  ∃ options,
    compress_with_pikepdf input_path output_path quality l
    = (match save_error pdf (str output_path) options with
       | Some e => inl e
       | None => inr tt
       end,
       l ++ [CompressMain.Open (str input_path);
             CompressMain.Save pdf (str output_path) options;
             CompressMain.Close pdf])
    ∧ CompressMain.compress_streams options = true.
Proof.
  intros Hopen. unfold CompressMain.compress_with_pikepdf.
  assert (∀ cs os lin,
    cs = true →
    ∃ options,
      CompressMain.with_open pikepdf_open (str input_path)
        (λ pdf, CompressMain.save save_error pdf (str output_path)
                  (CompressMain.SaveOptions cs os lin)) l
      = (match save_error pdf (str output_path) options with
         | Some e => inl e
         | None => inr tt
         end,
         l ++ [CompressMain.Open (str input_path);
               CompressMain.Save pdf (str output_path) options;
               CompressMain.Close pdf])
      ∧ CompressMain.compress_streams options = true) as Hrun.
  { intros cs os lin ->. exists (CompressMain.SaveOptions true os lin).
    split; [|reflexivity].
    unfold CompressMain.with_open, CompressMain.save. rewrite Hopen.
    destruct (save_error _ _ _); by rewrite <- !app_assoc. }
  destruct (String.eqb quality "strong"); [by apply Hrun|].
  destruct (String.eqb quality "light"); by apply Hrun.
Qed.

(** X17: with a method other than "ghostscript", [main] starts no process;
    the Ghostscript path option is not looked at. *)
Theorem main_pikepdf_starts_no_process (w : CompressMain.cworld)
    (a : CompressMain.args) :
  CompressMain.method a ≠ "ghostscript" →
  CompressMain.procs (main a w).2 = CompressMain.procs w.
Proof.
  intros Hmethod%String.eqb_neq. unfold CompressMain.main. rewrite Hmethod.
  unfold mbind, M_bind, CompressMain.on_pike.
  destruct (CompressMain.output a) as [p|].
  - simpl. by destruct (compress_with_pikepdf _ _ _ _).
  - unfold lift. destruct (with_name _ _) as [e | p]; [done|].
    by destruct (compress_with_pikepdf _ _ _ _).
Qed.

(** X18: with the method "ghostscript", an output path that is given or
    can be derived from the input, and no Ghostscript found, [main] raises
    the "Ghostscript not found" error and does nothing else: it does not
    fall back on pikepdf. *)
Theorem main_ghostscript_no_fallback (w : CompressMain.cworld)
    (a : CompressMain.args) :
  CompressMain.method a = "ghostscript" →
  find_ghostscript (CompressMain.gs_path a) = None →
  (CompressMain.output a = None →
   ∃ p, with_name (CompressMain.input_pdf a)
          (stem (CompressMain.input_pdf a) +:+ "_compressed.pdf") = inr p) →
  main a w
  = (inl (RuntimeError
            "Ghostscript not found. Install it or use --method pikepdf, or pass --gs-path."),
     w).
Proof.
  intros Hmethod Hnone Hname. unfold CompressMain.main.
  assert (∃ p, (match CompressMain.output a with
                | Some p => mret p
                | None => lift (with_name (CompressMain.input_pdf a)
                            (stem (CompressMain.input_pdf a) +:+ "_compressed.pdf"))
                end : M CompressMain.cworld Path) w = (inr p, w)) as [p Hout].
  { destruct (CompressMain.output a) as [p|]; [by exists p|].
    destruct (Hname eq_refl) as [p Hp]. exists p. unfold lift. by rewrite Hp. }
  run_with Hout. rewrite Hmethod. simpl.
  unfold CompressMain.on_procs, CompressPdf.compress_with_ghostscript.
  rewrite Hnone. simpl. by destruct w.
Qed.

(** When no output path is given and none can be derived from the input,
    [main] raises the exception of [with_name] and calls neither backend. *)
Lemma main_no_output_name (w : CompressMain.cworld) (a : CompressMain.args) e :
  CompressMain.output a = None →
  with_name (CompressMain.input_pdf a)
    (stem (CompressMain.input_pdf a) +:+ "_compressed.pdf") = inl e →
  main a w = (inl e, w).
Proof.
  intros Hout Hname. unfold CompressMain.main. rewrite Hout.
  erewrite bind_raise; [done|]. unfold lift. by rewrite Hname.
Qed.

End compress_main_theory.

Section split_main_theory.

Context {Page Path : Type}.
Variable serialize : list Page → bytes.
Variable has_remove_page : bool.
Variable PdfReader : Path → exn + list Page.
Variable path_div : Path → string → Path.
Variable remove_page : SplitPdf.ref → Z → M (@SplitPdf.world Page Path) unit.
Variable stem : Path → string.

(** As for [split_pdf]: what the source takes for granted where the
    library has [remove_page]. *)
Hypothesis remove_page_removes_last :
  has_remove_page = true →
  ∀ (w : @SplitPdf.world Page Path) writer ps,
    SplitPdf.heap w !! writer = Some ps → ps ≠ [] →
    remove_page writer (-1) w
    = (inr tt, SplitPdf.World (<[writer := removelast ps]> (SplitPdf.heap w))
                 (SplitPdf.fs_log w)).

(** X19: with no base name, or an empty one, the files of a run are named
    after the stem of the input file. *)
Theorem main_default_base_name (w : @SplitPdf.world Page Path) (a : SplitMain.args) doc :
  PdfReader (SplitMain.input_pdf a) = inr doc →
  SplitMain.base_name a = None ∨ SplitMain.base_name a = Some "" →
  ∃ parts w',
    SplitMain.main serialize has_remove_page PdfReader path_div remove_page stem a w
    = (inr tt, w')
    ∧ SplitPdf.stores serialize path_div (SplitMain.output_dir a)
        (stem (SplitMain.input_pdf a)) w w' parts.
Proof.
  intros Hdoc Hbase. unfold SplitMain.main.
  assert (SplitMain.str_or (SplitMain.base_name a) (stem (SplitMain.input_pdf a))
          = stem (SplitMain.input_pdf a)) as ->
    by (by destruct Hbase as [-> | ->]).
  destruct (split_pdf_run serialize has_remove_page PdfReader path_div remove_page
              remove_page_removes_last w
              (SplitMain.input_pdf a) (SplitMain.output_dir a)
              (stem (SplitMain.input_pdf a)) (SplitMain.max_mb a) doc Hdoc)
    as (w' & Hrun & Hlog).
  by eexists _, w'.
Qed.

End split_main_theory.

(** * The further properties on concrete inputs *)

Lemma len_toy_serialize ps :
  len (Examples.toy_serialize ps) = 1 + Z.of_nat (sum_list ps).
Proof.
  unfold len, Examples.toy_serialize. simpl length.
  induction ps as [|n ps IH]; simpl; [done|].
  rewrite length_app, length_replicate. lia.
Qed.

Lemma toy_serialize_page_le part page :
  page ∈ part →
  len (Examples.toy_serialize [page]) ≤ len (Examples.toy_serialize part).
Proof.
  rewrite !len_toy_serialize. simpl.
  induction 1 as [page part | page q part _ IH]; simpl; lia.
Qed.

Lemma join_inj dir n1 n2 : Examples.join dir n1 = Examples.join dir n2 → n1 = n2.
Proof.
  unfold Examples.join. intros Heq.
  by apply (inj (String.app _)), (inj (String.app _)) in Heq.
Qed.

Lemma split_pdf_one_part_witness :
  ∃ w',
    SplitPdf.split_pdf Examples.toy_serialize false
      (Examples.one_file "doc.pdf" [2; 2]%nat) Examples.join Examples.no_remove_page
      "doc.pdf" "out" "doc" Examples.five_bytes Examples.empty_world = (inr tt, w')
    ∧ SplitPdf.fs_log w' = [] ++
        [SplitPdf.Mkdir "out";
         SplitPdf.WriteBytes (Examples.join "out" ("doc" +:+ "_part1.pdf"))
           (Examples.toy_serialize [2; 2]%nat)].
Proof.
  apply (split_pdf_one_part Examples.toy_serialize false
           (Examples.one_file "doc.pdf" [2; 2]%nat) Examples.join Examples.no_remove_page fallback_only
           Examples.empty_world "doc.pdf" "out" "doc" Examples.five_bytes [2; 2]%nat).
  - reflexivity.
  - discriminate.
  - intros k Hk. simpl in Hk. assert (k = 2%nat) as -> by lia.
    vm_compute. discriminate.
Defined.

Lemma split_pdf_oversized_page_alone_witness :
  ∃ parts w',
    SplitPdf.split_pdf Examples.toy_serialize false
      (Examples.one_file "doc.pdf" [2; 2; 2; 9; 1]%nat) Examples.join
      Examples.no_remove_page
      "doc.pdf" "out" "doc" Examples.five_bytes Examples.empty_world = (inr tt, w')
    ∧ SplitPdf.stores Examples.toy_serialize Examples.join "out" "doc"
        Examples.empty_world w' parts
    ∧ ∀ page, page ∈ [2; 2; 2; 9; 1]%nat →
        py_int (Examples.five_bytes * 1024 * 1024)%Q < len (Examples.toy_serialize [page]) →
        [page] ∈ parts
        ∧ ∀ part, part ∈ parts → page ∈ part → part = [page].
Proof.
  apply (split_pdf_oversized_page_alone Examples.toy_serialize false
           (Examples.one_file "doc.pdf" [2; 2; 2; 9; 1]%nat) Examples.join Examples.no_remove_page fallback_only
           Examples.empty_world "doc.pdf" "out" "doc" Examples.five_bytes
           [2; 2; 2; 9; 1]%nat).
  - reflexivity.
  - exact toy_serialize_page_le.
Defined.

Lemma split_pdf_parts_greedy_witness :
  ∃ parts w',
    SplitPdf.split_pdf Examples.toy_serialize false
      (Examples.one_file "doc.pdf" [2; 2; 2; 9; 1]%nat) Examples.join Examples.no_remove_page
      "doc.pdf" "out" "doc" Examples.five_bytes Examples.empty_world = (inr tt, w')
    ∧ SplitPdf.stores Examples.toy_serialize Examples.join "out" "doc"
        Examples.empty_world w' parts
    ∧ ∀ i a b, parts !! i = Some a → parts !! S i = Some b →
        ∃ q b', b = q :: b'
          ∧ (py_int (Examples.five_bytes * 1024 * 1024)%Q
               < len (Examples.toy_serialize (a ++ [q]))
             ∨ (length a = 1%nat
                ∧ py_int (Examples.five_bytes * 1024 * 1024)%Q
                    < len (Examples.toy_serialize a))).
Proof.
  apply (split_pdf_parts_greedy Examples.toy_serialize false
           (Examples.one_file "doc.pdf" [2; 2; 2; 9; 1]%nat) Examples.join Examples.no_remove_page fallback_only
           Examples.empty_world "doc.pdf" "out" "doc" Examples.five_bytes
           [2; 2; 2; 9; 1]%nat).
  reflexivity.
Defined.

Lemma split_pdf_parts_le_pages_witness :
  ∃ parts w',
    SplitPdf.split_pdf Examples.toy_serialize false
      (Examples.one_file "doc.pdf" [2; 2; 2; 9; 1]%nat) Examples.join Examples.no_remove_page
      "doc.pdf" "out" "doc" Examples.five_bytes Examples.empty_world = (inr tt, w')
    ∧ SplitPdf.stores Examples.toy_serialize Examples.join "out" "doc"
        Examples.empty_world w' parts
    ∧ (length parts ≤ length [2; 2; 2; 9; 1]%nat)%nat.
Proof.
  apply (split_pdf_parts_le_pages Examples.toy_serialize false
           (Examples.one_file "doc.pdf" [2; 2; 2; 9; 1]%nat) Examples.join Examples.no_remove_page fallback_only
           Examples.empty_world "doc.pdf" "out" "doc" Examples.five_bytes).
  reflexivity.
Defined.


Lemma split_pdf_files_distinct_witness :
  ∃ calls w',
    SplitPdf.split_pdf Examples.toy_serialize false
      (Examples.one_file "doc.pdf" [2; 2; 2; 9; 1]%nat) Examples.join Examples.no_remove_page
      "doc.pdf" "out" "doc" Examples.five_bytes Examples.empty_world = (inr tt, w')
    ∧ SplitPdf.fs_log w' = [] ++ calls
    ∧ NoDup (SplitParts.written_files calls).
Proof.
  apply (split_pdf_files_distinct Examples.toy_serialize false
           (Examples.one_file "doc.pdf" [2; 2; 2; 9; 1]%nat) Examples.join Examples.no_remove_page fallback_only
           Examples.empty_world "doc.pdf" "out" "doc" Examples.five_bytes
           [2; 2; 2; 9; 1]%nat).
  - reflexivity.
  - intros i j. apply join_inj.
Defined.

Lemma remove_last_page_fallback_fresh_witness :
  SplitPdf.remove_last_page false Examples.no_remove_page 0%nat (SplitPdf.World [[1; 2; 3]%nat] [])
  = (inr 1%nat,
     SplitPdf.World [[1; 2; 3]; [1; 2]]%nat [] : @SplitPdf.world nat string).
Proof.
  apply (remove_last_page_fallback_fresh (Path := string) false Examples.no_remove_page
           (SplitPdf.World [[1; 2; 3]%nat] []) 0%nat [1; 2; 3]%nat);
    [reflexivity | reflexivity | discriminate].
Defined.

Lemma add_page_remove_last_page_witness :
  (SplitPdf.add_page 0%nat 3%nat
     ≫= λ _, SplitPdf.remove_last_page false Examples.no_remove_page 0%nat)
    (SplitPdf.World [[1; 2]%nat] [])
  = (inr 1%nat,
     SplitPdf.World [[1; 2; 3]; [1; 2]]%nat [] : @SplitPdf.world nat string).
Proof.
  apply (add_page_remove_last_page (Path := string) false Examples.no_remove_page
           (SplitPdf.World [[1; 2]%nat] []) 0%nat [1; 2]%nat 3%nat);
    reflexivity.
Defined.

(** Ghostscript is on the search path, and the explicit path is wrong. *)
Lemma ghostscript_bad_explicit_path_witness :
  CompressPdf.compress_with_ghostscript id Examples.no_path Examples.gs_on_path
    Examples.no_glob String.leb (λ _, 0) Examples.starts "in.pdf" "out.pdf" "medium"
    (Some "C:/gs/bin/gswin64c.exe") []
  = (inl (RuntimeError
            "Ghostscript not found. Install it or use --method pikepdf, or pass --gs-path."),
     []).
Proof.
  apply (ghostscript_bad_explicit_path id Examples.no_path Examples.gs_on_path
           Examples.no_glob String.leb (λ _, 0) Examples.starts [] "in.pdf" "out.pdf" "medium"
           "C:/gs/bin/gswin64c.exe").
  reflexivity.
Defined.

Lemma leb_total (p q : nat) : Nat.leb p q = true ∨ Nat.leb q p = true.
Proof. rewrite !Nat.leb_le. lia. Qed.

Lemma leb_trans (p q r : nat) :
  Nat.leb p q = true → Nat.leb q r = true → Nat.leb p r = true.
Proof. rewrite !Nat.leb_le. lia. Qed.

Lemma find_ghostscript_latest_witness :
  ∃ p,
    CompressPdf.find_ghostscript str_of_nat (λ _, false) Examples.no_which
      Examples.installed Nat.leb None = Some (str_of_nat p)
    ∧ p ∈ Examples.installed "C:/Program Files/gs" "**/bin/gswin64c.exe"
          ++ Examples.installed "C:/Program Files (x86)/gs" "**/bin/gswin32c.exe"
    ∧ ∀ q, q ∈ Examples.installed "C:/Program Files/gs" "**/bin/gswin64c.exe"
               ++ Examples.installed "C:/Program Files (x86)/gs" "**/bin/gswin32c.exe" →
           Nat.leb q p = true.
Proof.
  apply (find_ghostscript_latest str_of_nat (λ _, false) Examples.no_which
           Examples.installed Nat.leb leb_total leb_trans).
  - reflexivity.
  - reflexivity.
  - reflexivity.
  - discriminate.
Defined.

(** The install chosen among 3, 1 and 2. *)
Example find_ghostscript_latest_of_three :
  CompressPdf.find_ghostscript str_of_nat (λ _, false) Examples.no_which
    Examples.installed Nat.leb None = Some "3".
Proof. reflexivity. Qed.

Lemma ghostscript_runs_once_witness :
  ∃ cmd,
    CompressPdf.compress_with_ghostscript id Examples.no_path Examples.gs_on_path
      Examples.no_glob String.leb (λ _, 1) Examples.starts
      "in.pdf" "out.pdf" "strong" None []
    = match Examples.starts cmd with
      | Some e => (inl e, [])
      | None =>
          (if (λ _ : list string, 1) cmd =? 0 then inr tt
           else inl (CalledProcessError ((λ _ : list string, 1) cmd)),
           [] ++ [CompressPdf.Run cmd])
      end
    ∧ head cmd = Some "/usr/bin/gs"
    ∧ ("-sOutputFile=" +:+ id "out.pdf") ∈ cmd
    ∧ last cmd = Some (id "in.pdf").
Proof.
  apply (ghostscript_runs_once id Examples.no_path Examples.gs_on_path
           Examples.no_glob String.leb (λ _, 1) Examples.starts
           [] "in.pdf" "out.pdf" "strong" None "/usr/bin/gs").
  - reflexivity.
  - discriminate.
Defined.

Lemma ghostscript_other_quality_is_medium_witness :
  CompressPdf.compress_with_ghostscript id Examples.no_path Examples.gs_on_path
    Examples.no_glob String.leb (λ _, 0) Examples.starts "in.pdf" "out.pdf" "best" None []
  = CompressPdf.compress_with_ghostscript id Examples.no_path Examples.gs_on_path
      Examples.no_glob String.leb (λ _, 0) Examples.starts "in.pdf" "out.pdf" "medium" None [].
Proof.
  apply (ghostscript_other_quality_is_medium id Examples.no_path Examples.gs_on_path
           Examples.no_glob String.leb (λ _, 0) Examples.starts [] "in.pdf" "out.pdf" "best" None);
    discriminate.
Defined.

Lemma pikepdf_other_quality_is_medium_witness :
  CompressMain.compress_with_pikepdf id Examples.open_any Examples.save_fine
    "in.pdf" "out.pdf" "best" []
  = CompressMain.compress_with_pikepdf id Examples.open_any Examples.save_fine
      "in.pdf" "out.pdf" "medium" [].
Proof.
  apply (pikepdf_other_quality_is_medium id Examples.open_any Examples.save_fine
           [] "in.pdf" "out.pdf" "best"); discriminate.
Defined.

Lemma pikepdf_unreadable_witness :
  CompressMain.compress_with_pikepdf id Examples.open_none Examples.save_fine
    "in.pdf" "out.pdf" "medium" []
  = (inl (OSError "No such file or directory"), [] ++ [CompressMain.Open (id "in.pdf")]).
Proof.
  apply (pikepdf_unreadable id Examples.open_none Examples.save_fine
           [] "in.pdf" "out.pdf" "medium").
  reflexivity.
Defined.

Lemma pikepdf_saves_and_closes_witness :
  ∃ options,
    CompressMain.compress_with_pikepdf id Examples.open_any
      (λ _ _ _, Some (OSError "No space left on device")) "in.pdf" "out.pdf" "light" []
    = (match (λ _ _ _, Some (OSError "No space left on device"))
               7%nat (id "out.pdf") options with
       | Some e => inl e
       | None => inr tt
       end,
       [] ++ [CompressMain.Open (id "in.pdf");
              CompressMain.Save 7%nat (id "out.pdf") options;
              CompressMain.Close 7%nat])
    ∧ CompressMain.compress_streams options = true.
Proof.
  apply (pikepdf_saves_and_closes id Examples.open_any
           (λ _ _ _, Some (OSError "No space left on device"))
           [] "in.pdf" "out.pdf" "light" 7%nat).
  reflexivity.
Defined.

Lemma main_pikepdf_starts_no_process_witness :
  CompressMain.procs
    (CompressMain.main id Examples.no_path Examples.gs_on_path Examples.no_glob
       String.leb (λ _, 0) Examples.starts Examples.stem Examples.with_name Examples.open_any
       Examples.save_fine
       (CompressMain.Args "doc.pdf" None "pikepdf" "medium" (Some "C:/gs/gs.exe"))
       (CompressMain.CWorld [] [])).2
  = CompressMain.procs (CompressMain.CWorld [] [] : @CompressMain.cworld nat).
Proof.
  apply (main_pikepdf_starts_no_process id Examples.no_path Examples.gs_on_path
           Examples.no_glob String.leb (λ _, 0) Examples.starts Examples.stem Examples.with_name
           Examples.open_any Examples.save_fine (CompressMain.CWorld [] [])
           (CompressMain.Args "doc.pdf" None "pikepdf" "medium" (Some "C:/gs/gs.exe"))).
  discriminate.
Defined.

Lemma main_ghostscript_no_fallback_witness :
  CompressMain.main id Examples.no_path Examples.no_which Examples.no_glob
    String.leb (λ _, 0) Examples.starts Examples.stem Examples.with_name Examples.open_any
    Examples.save_fine
    (CompressMain.Args "doc.pdf" None "ghostscript" "medium" None)
    (CompressMain.CWorld [] [])
  = (inl (RuntimeError
            "Ghostscript not found. Install it or use --method pikepdf, or pass --gs-path."),
     CompressMain.CWorld [] []).
Proof.
  apply (main_ghostscript_no_fallback id Examples.no_path Examples.no_which
           Examples.no_glob String.leb (λ _, 0) Examples.starts Examples.stem Examples.with_name
           Examples.open_any Examples.save_fine (CompressMain.CWorld [] [])
           (CompressMain.Args "doc.pdf" None "ghostscript" "medium" None)).
  - reflexivity.
  - reflexivity.
  - intros _. by eexists.
Defined.

Lemma main_default_base_name_witness :
  ∃ parts w',
    SplitMain.main Examples.toy_serialize false
      (Examples.one_file "doc.pdf" [2; 2; 2; 9; 1]%nat) Examples.join Examples.no_remove_page Examples.stem
      (SplitMain.Args "doc.pdf" "out" (Some "") Examples.five_bytes)
      Examples.empty_world = (inr tt, w')
    ∧ SplitPdf.stores Examples.toy_serialize Examples.join "out" "doc"
        Examples.empty_world w' parts.
Proof.
  apply (main_default_base_name Examples.toy_serialize false
           (Examples.one_file "doc.pdf" [2; 2; 2; 9; 1]%nat) Examples.join Examples.no_remove_page Examples.stem fallback_only
           Examples.empty_world
           (SplitMain.Args "doc.pdf" "out" (Some "") Examples.five_bytes)
           [2; 2; 2; 9; 1]%nat).
  - reflexivity.
  - by right.
Defined.
